(** * SoapyRemote: the SSDP discovery endpoint (common/SoapySSDPEndpoint.cpp)

    A shallow embedding of the endpoint's state, of its message handlers and
    of one iteration of a handler's receive loop, followed by the properties
    of the discovery cache, the periodic triggers and the join blacklist.

    Conventions of the embedding:
    - a [time_point] of [std::chrono::high_resolution_clock] is its tick
      count, an integer of [Z]; the clock ticks in nanoseconds;
    - code that can throw returns a [result];
    - [std::map<std::string, ...>] is a [gmap string ...]; the order in which
      the source enumerates a map is not observable in any statement below
      (lists built from a map are compared up to permutation);
    - every call of [high_resolution_clock::now()] is an explicit argument of
      the function that makes the call;
    - the socket of a handler is the list of datagrams it was asked to send. *)

From Stdlib Require Import ZArith Ascii String.
From stdpp Require Import base gmap sets list strings.

Local Open Scope string_scope.
Local Open Scope list_scope.
Local Open Scope Z_scope.

(** ** Exceptions *)

(** The two exceptions of the standard library that the code can meet. *)
Inductive exn : Type :=
  | out_of_range
  | invalid_argument.

Inductive result (A : Type) : Type :=
  | Ok (a : A)
  | Throw (e : exn).
Arguments Ok {A} a.
Arguments Throw {A} e.

Definition rbind {A B : Type} (r : result A) (k : A -> result B) : result B :=
  match r with
  | Ok a => k a
  | Throw e => Throw e
  end.

Notation "'let*' x ':=' r 'in' k" := (rbind r (fun x => k))
  (at level 10, x name, r at level 100, k at level 200).

(** [try { return body; } catch (...) { return handler; }] *)
Definition try_catch {A : Type} (body : result A) (handler : A) : A :=
  match body with
  | Ok a => a
  | Throw _ => handler
  end.

(** ** Constants of the source *)

Definition SSDP_MULTICAST_ADDR_IPV4 : string := "239.255.255.250".
Definition SSDP_MULTICAST_ADDR_IPV6 : string := "ff02::c".
Definition SSDP_UDP_PORT_NUMBER : string := "1900".
Definition SOAPY_REMOTE_TARGET : string :=
  "urn:schemas-pothosware-com:service:soapyRemote:1".
Definition TRIGGER_TIMEOUT_SECONDS : Z := 60.
Definition CACHE_DURATION_SECONDS : Z := 120.
Definition NTS_ALIVE : string := "ssdp:alive".
Definition NTS_BYEBYE : string := "ssdp:byebye".

(** The value of the MAN field: ssdp:discover between two double quotes
    (character 34). *)
Definition MAN_DISCOVER : string :=
  String "034"%char ("ssdp:discover" +:+ String "034"%char EmptyString).

(** [std::to_string(CACHE_DURATION_SECONDS)] *)
Definition CACHE_DURATION_SECONDS_str : string := "120".

(** Ticks of [high_resolution_clock] in one second, and
    [std::chrono::seconds(n)] converted to the clock's duration. *)
Definition ticks_per_second : Z := 1000000000.
Definition seconds (n : Z) : Z := n * ticks_per_second.

(** ** Characters, strings and [std::stoul] *)

(** [std::isspace] in the "C" locale: space, and \t \n \v \f \r. *)
Definition isspace (c : ascii) : bool :=
  let n := nat_of_ascii c in
  (Nat.eqb n 32 || (Nat.leb 9 n && Nat.leb n 13))%bool.

Definition digit_of (c : ascii) : option Z :=
  let n := nat_of_ascii c in
  if (Nat.leb 48 n && Nat.leb n 57)%bool then Some (Z.of_nat n - 48) else None.

(** [unsigned long] and [int] of an LP64 platform. *)
Definition ULONG_MAX : Z := 2 ^ 64 - 1.
Definition wrap_ulong (z : Z) : Z := z mod 2 ^ 64.
Definition int_of_ulong (z : Z) : Z :=
  let r := z mod 2 ^ 32 in
  if r <? 2 ^ 31 then r else r - 2 ^ 32.

Fixpoint skip_spaces (s : string) : string :=
  match s with
  | String c rest => if isspace c then skip_spaces rest else s
  | EmptyString => s
  end.

(** The digits of [strtoul]: [acc] is the value read so far, [seen] whether a
    digit was read, [over] whether the value left the range of
    [unsigned long].  Reading stops at the first character that is no digit. *)
Fixpoint read_digits (s : string) (acc : Z) (seen over : bool) : Z * bool * bool :=
  match s with
  | String c rest =>
      match digit_of c with
      | Some d =>
          let acc' := acc * 10 + d in
          read_digits rest acc' true (over || (ULONG_MAX <? acc'))%bool
      | None => (acc, seen, over)
      end
  | EmptyString => (acc, seen, over)
  end.

(** [std::stoul(str)] in base 10: leading white space, an optional sign, then
    digits; [invalid_argument] when there is no digit, [out_of_range] when
    the value does not fit; a minus sign negates in [unsigned long]. *)
Definition stoul (str : string) : result Z :=
  let s := skip_spaces str in
  let '(neg, body) :=
    match s with
    | String "-"%char rest => (true, rest)
    | String "+"%char rest => (false, rest)
    | _ => (false, s)
    end in
  let '(v, seen, over) := read_digits body 0 false false in
  if negb seen then Throw invalid_argument
  else if over then Throw out_of_range
  else Ok (if neg : bool then wrap_ulong (- v) else v).

(** [s.find(pat)] from position 0; [None] is [std::string::npos]. *)
Definition str_find (pat s : string) : option nat := String.index 0 pat s.

(** [s.substr(pos)], for [pos <= s.size()]. *)
Definition substr (pos : nat) (s : string) : string :=
  String.substring pos (String.length s - pos) s.

(** [while (std::isspace(s.at(pos))) pos++;] where [suffix] is [s] from
    [pos] on: [at] throws [out_of_range] once [pos] reaches [s.size()]. *)
Fixpoint skip_isspace_at (suffix : string) (pos : nat) : result nat :=
  match suffix with
  | EmptyString => Throw out_of_range
  | String c rest => if isspace c then skip_isspace_at rest (S pos) else Ok pos
  end.

(** ** HTTP headers *)

(** Modelled from the spec: the structured header codec [SoapyHTTPHeader]
    (SoapyHTTPUtils), declared outside this file's source.  A header is its
    start line and its fields in the order they were added; [getField] of a
    field that is absent is the empty string. *)
Record SoapyHTTPHeader : Type := mkHeader {
  getLine0 : string;
  fields : list (string * string)
}.

Fixpoint lookup_field (key : string) (l : list (string * string)) : string :=
  match l with
  | [] => ""
  | (k, v) :: rest => if String.eqb k key then v else lookup_field key rest
  end.

Definition getField (h : SoapyHTTPHeader) (key : string) : string :=
  lookup_field key (fields h).

Definition addField (key value : string) (h : SoapyHTTPHeader) : SoapyHTTPHeader :=
  mkHeader (getLine0 h) (fields h ++ [(key, value)]).

Definition newHeader (line0 : string) : SoapyHTTPHeader := mkHeader line0 [].

(** ** getCacheDuration *)

Definition getCacheDuration (header : SoapyHTTPHeader) : result Z :=
  let cacheControl := getField header "CACHE-CONTROL" in
  if String.eqb cacheControl "" then Ok CACHE_DURATION_SECONDS
  else
    match str_find "max-age" cacheControl, str_find "=" cacheControl with
    | None, _ => Ok CACHE_DURATION_SECONDS
    | Some _, None => Ok CACHE_DURATION_SECONDS
    | Some maxAgePos, Some equalsPos =>
        if (equalsPos <? maxAgePos)%nat then Ok CACHE_DURATION_SECONDS
        else
          let* valuePos :=
            skip_isspace_at (substr (equalsPos + 1) cacheControl) (equalsPos + 1) in
          let maxAge := substr valuePos cacheControl in
          Ok (try_catch (let* v := stoul maxAge in Ok (int_of_ulong v))
                        CACHE_DURATION_SECONDS)
    end.

(** ** Collaborators *)

(** [SoapyURL]: a locator split in scheme, node and service. *)
Record SoapyURL : Type := mkURL {
  getScheme : string;
  getNode : string;
  getService : string
}.

Definition setScheme (scheme : string) (url : SoapyURL) : SoapyURL :=
  mkURL scheme (getNode url) (getService url).

(** What the endpoint takes from the rest of the library, whose code is not
    part of this file's source: the locator parser and formatter of
    SoapyURLUtils and the identification strings of SoapyInfoUtils. *)
Class Platform : Type := {
  (** [SoapyURL::SoapyURL(const std::string &url)] *)
  parseURL : string -> SoapyURL;
  (** [SoapyURL::toString()] *)
  toString : SoapyURL -> string;
  (** [SoapyInfo::getHostName()] *)
  getHostName : string;
  (** [SoapyInfo::getUserAgent()] *)
  getUserAgent : string
}.

(** ** State *)

(** A datagram handed to [sock.sendto]: destination address and header. *)
Definition Datagram : Type := string * SoapyHTTPHeader.

Record SoapySSDPEndpointData : Type := mkData {
  ipVer : Z;
  (** the datagrams sent on the handler's socket, oldest first *)
  sock : list Datagram;
  groupURL : string;
  (** whether the handler's thread is still inside [handlerLoop] *)
  thread : bool;
  lastTimeSearch : Z;
  lastTimeNotify : Z;
  usnToURL : gmap string (string * Z)
}.

Definition set_sock (s : list Datagram) (d : SoapySSDPEndpointData) :=
  mkData (ipVer d) s (groupURL d) (thread d) (lastTimeSearch d) (lastTimeNotify d) (usnToURL d).
Definition set_thread (b : bool) (d : SoapySSDPEndpointData) :=
  mkData (ipVer d) (sock d) (groupURL d) b (lastTimeSearch d) (lastTimeNotify d) (usnToURL d).
Definition set_lastTimeSearch (t : Z) (d : SoapySSDPEndpointData) :=
  mkData (ipVer d) (sock d) (groupURL d) (thread d) t (lastTimeNotify d) (usnToURL d).
Definition set_lastTimeNotify (t : Z) (d : SoapySSDPEndpointData) :=
  mkData (ipVer d) (sock d) (groupURL d) (thread d) (lastTimeSearch d) t (usnToURL d).
Definition set_usnToURL (m : gmap string (string * Z)) (d : SoapySSDPEndpointData) :=
  mkData (ipVer d) (sock d) (groupURL d) (thread d) (lastTimeSearch d) (lastTimeNotify d) m.

Record SoapySSDPEndpoint : Type := mkEndpoint {
  serviceRegistered : bool;
  periodicSearchEnabled : bool;
  periodicNotifyEnabled : bool;
  done : bool;
  uuid : string;
  service : string;
  handlers : list SoapySSDPEndpointData
}.

Definition set_handlers (hs : list SoapySSDPEndpointData) (ep : SoapySSDPEndpoint) :=
  mkEndpoint (serviceRegistered ep) (periodicSearchEnabled ep) (periodicNotifyEnabled ep)
             (done ep) (uuid ep) (service ep) hs.

(** A call the handler set-up makes to the operating system. *)
Inductive SysCall : Type :=
  | MulticastJoin (groupURL : string) (ret : Z)
  | Bind (bindURL : string) (ret : Z)
  | ThreadStart (groupURL : string).

(** What outlives an endpoint: the static [blacklistedGroups] of
    [spawnHandler], and the system calls made so far. *)
Record Process : Type := mkProcess {
  blacklistedGroups : gset string;
  syscalls : list SysCall
}.

Section Endpoint.
Context `{Platform}.

(** ** Sending *)

(** [sendHeader]: a short send is logged and nothing else; the socket keeps
    the datagram it was given. *)
Definition sendHeader (sock : list Datagram) (header : SoapyHTTPHeader)
    (addr : string) : list Datagram :=
  sock ++ [(addr, header)].

Definition searchHeader (data : SoapySSDPEndpointData) : SoapyHTTPHeader :=
  let hostURL := setScheme "" (parseURL (groupURL data)) in
  addField "USER-AGENT" getUserAgent
    (addField "ST" SOAPY_REMOTE_TARGET
      (addField "MX" "2"
        (addField "MAN" MAN_DISCOVER
          (addField "HOST" (toString hostURL)
            (newHeader "M-SEARCH * HTTP/1.1"))))).

(** [now] is the clock read after the send. *)
Definition sendSearchHeader (data : SoapySSDPEndpointData) (now : Z)
    : SoapySSDPEndpointData :=
  set_lastTimeSearch now
    (set_sock (sendHeader (sock data) (searchHeader data) (groupURL data)) data).

(** The USN this node announces. *)
Definition ownUSN (ep : SoapySSDPEndpoint) : string :=
  "uuid:" +:+ uuid ep +:+ "::" +:+ SOAPY_REMOTE_TARGET.

(** The locator this node announces. *)
Definition ownLocation (ep : SoapySSDPEndpoint) : string :=
  toString (mkURL "tcp" getHostName (service ep)).

Definition notifyHeader (ep : SoapySSDPEndpoint) (data : SoapySSDPEndpointData)
    (nts : string) : SoapyHTTPHeader :=
  let hostURL := setScheme "" (parseURL (groupURL data)) in
  let header := addField "HOST" (toString hostURL) (newHeader "NOTIFY * HTTP/1.1") in
  let header :=
    if String.eqb nts NTS_ALIVE then
      addField "LOCATION" (ownLocation ep)
        (addField "CACHE-CONTROL" ("max-age=" +:+ CACHE_DURATION_SECONDS_str) header)
    else header in
  addField "NTS" nts
    (addField "USN" (ownUSN ep)
      (addField "NT" SOAPY_REMOTE_TARGET
        (addField "SERVER" getUserAgent header))).

Definition sendNotifyHeader (ep : SoapySSDPEndpoint) (data : SoapySSDPEndpointData)
    (nts : string) (now : Z) : SoapySSDPEndpointData :=
  if negb (serviceRegistered ep) then data
  else
    set_lastTimeNotify now
      (set_sock (sendHeader (sock data) (notifyHeader ep data nts) (groupURL data)) data).

(** ** Incoming messages *)

(** [date] is the result of [timeNowGMT()], the wall clock formatted by
    [strftime]. *)
Definition searchResponse (ep : SoapySSDPEndpoint) (date : string) : SoapyHTTPHeader :=
  addField "USN" (ownUSN ep)
    (addField "ST" SOAPY_REMOTE_TARGET
      (addField "SERVER" getUserAgent
        (addField "LOCATION" (ownLocation ep)
          (addField "EXT" ""
            (addField "DATE" date
              (addField "CACHE-CONTROL" ("max-age=" +:+ CACHE_DURATION_SECONDS_str)
                (newHeader "HTTP/1.1 200 OK"))))))).

Definition stForUs (ep : SoapySSDPEndpoint) (st : string) : bool :=
  (String.eqb st "ssdp:all" || String.eqb st SOAPY_REMOTE_TARGET
   || String.eqb st ("uuid:" +:+ uuid ep))%bool.

Definition handleSearchRequest (ep : SoapySSDPEndpoint) (data : SoapySSDPEndpointData)
    (request : SoapyHTTPHeader) (recvAddr : string) (date : string) (now : Z)
    : SoapySSDPEndpointData :=
  if negb (serviceRegistered ep) then data
  else if negb (String.eqb (getField request "MAN") MAN_DISCOVER) then data
  else if negb (stForUs ep (getField request "ST")) then data
  else
    let data :=
      set_sock (sendHeader (sock data) (searchResponse ep date) recvAddr) data in
    sendNotifyHeader ep data NTS_ALIVE now.

(** The locator recorded for a peer. *)
Definition serverURL (recvAddr location : string) : SoapyURL :=
  mkURL "tcp" (getNode (parseURL recvAddr)) (getService (parseURL location)).

(** [now] is the clock read when the expiry is computed. *)
Definition handleRegisterService (data : SoapySSDPEndpointData)
    (header : SoapyHTTPHeader) (recvAddr : string) (now : Z)
    : result SoapySSDPEndpointData :=
  let usn := getField header "USN" in
  if String.eqb usn "" then Ok data
  else if String.eqb (getField header "NTS") NTS_BYEBYE then
    Ok (set_usnToURL (delete usn (usnToURL data)) data)
  else
    let location := getField header "LOCATION" in
    if String.eqb location "" then Ok data
    else
      let* duration := getCacheDuration header in
      let expires := now + seconds duration in
      Ok (set_usnToURL
            (<[usn := (toString (serverURL recvAddr location), expires)]> (usnToURL data))
            data).

Definition handleSearchResponse (data : SoapySSDPEndpointData)
    (header : SoapyHTTPHeader) (recvAddr : string) (now : Z)
    : result SoapySSDPEndpointData :=
  if negb (String.eqb (getField header "ST") SOAPY_REMOTE_TARGET) then Ok data
  else handleRegisterService data header recvAddr now.

Definition handleNotifyRequest (data : SoapySSDPEndpointData)
    (header : SoapyHTTPHeader) (recvAddr : string) (now : Z)
    : result SoapySSDPEndpointData :=
  if negb (String.eqb (getField header "NT") SOAPY_REMOTE_TARGET) then Ok data
  else handleRegisterService data header recvAddr now.

(** ** One iteration of [handlerLoop] *)

(** What the receive step finds: [selectRecv] timed out, or [recvfrom]
    returned [ret] with a datagram parsed into [header] from [recvAddr]. *)
Inductive Received : Type :=
  | NoDatagram
  | RecvFrom (ret : Z) (header : SoapyHTTPHeader) (recvAddr : string).

(** What one iteration takes from outside: the receive step, the wall-clock
    string, and the four readings of the clock it can make (by the message
    handler, at [timeNow], after a periodic search, after a periodic
    notify). *)
Record LoopInput : Type := mkLoopInput {
  received : Received;
  date : string;
  tHandler : Z;
  timeNow : Z;
  tSearch : Z;
  tNotify : Z
}.

Definition dispatch (ep : SoapySSDPEndpoint) (data : SoapySSDPEndpointData)
    (header : SoapyHTTPHeader) (recvAddr date : string) (now : Z)
    : result SoapySSDPEndpointData :=
  let data :=
    if String.eqb (getLine0 header) "M-SEARCH * HTTP/1.1"
    then handleSearchRequest ep data header recvAddr date now else data in
  let* data :=
    if String.eqb (getLine0 header) "HTTP/1.1 200 OK"
    then handleSearchResponse data header recvAddr now else Ok data in
  if String.eqb (getLine0 header) "NOTIFY * HTTP/1.1"
  then handleNotifyRequest data header recvAddr now else Ok data.

(** "remove old cache entries": the walk over the map that erases every
    entry unless [expires > timeNow]. *)
Definition removeOldEntries (timeNow : Z) (m : gmap string (string * Z))
    : gmap string (string * Z) :=
  map_fold (fun usn entry acc => if timeNow <? entry.2 then acc else delete usn acc) m m.

(** The part of an iteration after the receive step. *)
Definition sweepAndTriggers (ep : SoapySSDPEndpoint) (data : SoapySSDPEndpointData)
    (timeNow tSearch tNotify : Z) : SoapySSDPEndpointData :=
  let triggerExpired := timeNow + seconds TRIGGER_TIMEOUT_SECONDS in
  let data := set_usnToURL (removeOldEntries timeNow (usnToURL data)) data in
  let data :=
    if (periodicSearchEnabled ep && (triggerExpired <? lastTimeSearch data))%bool
    then sendSearchHeader data tSearch else data in
  if (periodicNotifyEnabled ep && (triggerExpired <? lastTimeNotify data))%bool
  then sendNotifyHeader ep data NTS_ALIVE tNotify else data.

(** The body of [while (not done)]; a negative [recvfrom] returns from
    [handlerLoop], which ends the thread. *)
Definition handlerLoop_body (ep : SoapySSDPEndpoint) (data : SoapySSDPEndpointData)
    (inp : LoopInput) : result SoapySSDPEndpointData :=
  match received inp with
  | RecvFrom ret header recvAddr =>
      if ret <? 0 then Ok (set_thread false data)
      else
        let* data := dispatch ep data header recvAddr (date inp) (tHandler inp) in
        Ok (sweepAndTriggers ep data (timeNow inp) (tSearch inp) (tNotify inp))
  | NoDatagram =>
      Ok (sweepAndTriggers ep data (timeNow inp) (tSearch inp) (tNotify inp))
  end.

(** One turn of [handlerLoop]: the body while [done] is false, otherwise the
    disconnect notification and the end of the thread. *)
Definition handlerLoop (ep : SoapySSDPEndpoint) (data : SoapySSDPEndpointData)
    (inp : LoopInput) : result SoapySSDPEndpointData :=
  if done ep then Ok (set_thread false (sendNotifyHeader ep data NTS_BYEBYE (tNotify inp)))
  else handlerLoop_body ep data inp.

(** The thread of the handler at position [i] takes one turn.  An exception
    that leaves [handlerLoop] ends the process. *)
Definition runHandler (ep : SoapySSDPEndpoint) (i : nat) (inp : LoopInput)
    : result SoapySSDPEndpoint :=
  match handlers ep !! i with
  | Some data =>
      if thread data then
        let* data' := handlerLoop ep data inp in
        Ok (set_handlers (<[i := data']> (handlers ep)) ep)
      else Ok ep
  | None => Ok ep
  end.

(** ** Public operations *)

Definition registerService (uuid service : string) (ep : SoapySSDPEndpoint)
    : SoapySSDPEndpoint :=
  mkEndpoint true (periodicSearchEnabled ep) (periodicNotifyEnabled ep) (done ep)
             uuid service (handlers ep).

(** [now i] is the clock read while the handler at position [i] is served. *)
Definition enablePeriodicSearch (enable : bool) (now : nat -> Z) (ep : SoapySSDPEndpoint)
    : SoapySSDPEndpoint :=
  let ep := mkEndpoint (serviceRegistered ep) enable (periodicNotifyEnabled ep) (done ep)
                       (uuid ep) (service ep) (handlers ep) in
  set_handlers (imap (fun i data => sendSearchHeader data (now i)) (handlers ep)) ep.

Definition enablePeriodicNotify (enable : bool) (now : nat -> Z) (ep : SoapySSDPEndpoint)
    : SoapySSDPEndpoint :=
  let ep := mkEndpoint (serviceRegistered ep) (periodicSearchEnabled ep) enable (done ep)
                       (uuid ep) (service ep) (handlers ep) in
  set_handlers (imap (fun i data => sendNotifyHeader ep data NTS_ALIVE (now i)) (handlers ep)) ep.

(** The inner loop of [getServerURLs] over one handler's cache. *)
Definition mergeHandler (ipVer' : Z) (only : bool)
    (usnPrefToURL : gmap string (string * Z)) (data : SoapySSDPEndpointData)
    : gmap string (string * Z) :=
  let ipVerMatch := ipVer data =? ipVer' in
  if (only && negb ipVerMatch)%bool then usnPrefToURL
  else
    map_fold (fun usn entry acc =>
                if (bool_decide (is_Some (acc !! usn)) && negb ipVerMatch)%bool then acc
                else <[usn := entry]> acc)
             usnPrefToURL (usnToURL data).

(** "a single mapping of discovered URLs using the preferences specified" *)
Definition usnPrefToURL (ep : SoapySSDPEndpoint) (ipVer' : Z) (only : bool)
    : gmap string (string * Z) :=
  foldl (mergeHandler ipVer' only) ∅ (handlers ep).

Definition getServerURLs (ep : SoapySSDPEndpoint) (ipVer' : Z) (only : bool)
    : list string :=
  (fun pair : string * (string * Z) => pair.2.1) <$> map_to_list (usnPrefToURL ep ipVer' only).

(** The destructor's [done = true]; the threads then leave their loops, each
    by its own turn of [handlerLoop]. *)
Definition shutdown (ep : SoapySSDPEndpoint) : SoapySSDPEndpoint :=
  mkEndpoint (serviceRegistered ep) (periodicSearchEnabled ep) (periodicNotifyEnabled ep)
             true (uuid ep) (service ep) (handlers ep).

(** ** Handler set-up *)

(** [joinRet] and [bindRet] are what [multicastJoin] and [bind] return when
    they are called. *)
Definition spawnHandler (p : Process) (ep : SoapySSDPEndpoint)
    (bindAddr groupAddr : string) (ipVer' : Z) (joinRet bindRet : Z)
    : Process * SoapySSDPEndpoint :=
  if bool_decide (groupAddr ∈ blacklistedGroups p) then (p, ep)
  else
    let groupURL := toString (mkURL "udp" groupAddr SSDP_UDP_PORT_NUMBER) in
    let calls := syscalls p ++ [MulticastJoin groupURL joinRet] in
    if negb (joinRet =? 0) then
      (mkProcess ({[groupAddr]} ∪ blacklistedGroups p) calls, ep)
    else
      let bindURL := toString (mkURL "udp" bindAddr SSDP_UDP_PORT_NUMBER) in
      let calls := calls ++ [Bind bindURL bindRet] in
      if negb (bindRet =? 0) then (mkProcess (blacklistedGroups p) calls, ep)
      else
        (mkProcess (blacklistedGroups p) (calls ++ [ThreadStart groupURL]),
         set_handlers (handlers ep ++ [mkData ipVer' [] groupURL true 0 0 ∅]) ep).

(** What the constructor takes from outside: the IPv6 probe and the results
    of the joins and binds. *)
Record SetupInput : Type := mkSetupInput {
  isIPv6Supported : bool;
  join4 : Z; bind4 : Z;
  join6 : Z; bind6 : Z
}.

(** [SoapySSDPEndpoint::SoapySSDPEndpoint] *)
Definition SoapySSDPEndpoint_new (p : Process) (inp : SetupInput)
    : Process * SoapySSDPEndpoint :=
  let ep := mkEndpoint false false false false "" "" [] in
  let '(p, ep) :=
    spawnHandler p ep "0.0.0.0" SSDP_MULTICAST_ADDR_IPV4 4 (join4 inp) (bind4 inp) in
  if isIPv6Supported inp
  then spawnHandler p ep "::" SSDP_MULTICAST_ADDR_IPV6 6 (join6 inp) (bind6 inp)
  else (p, ep).

(** One call of [spawnHandler] with all it depends on: the endpoint under
    construction, the arguments, and the results of the join and the bind. *)
Record SpawnAttempt : Type := mkAttempt {
  at_endpoint : SoapySSDPEndpoint;
  at_bindAddr : string;
  at_groupAddr : string;
  at_ipVer : Z;
  at_joinRet : Z;
  at_bindRet : Z
}.

Definition attempt (p : Process) (a : SpawnAttempt) : Process * SoapySSDPEndpoint :=
  spawnHandler p (at_endpoint a) (at_bindAddr a) (at_groupAddr a) (at_ipVer a)
               (at_joinRet a) (at_bindRet a).

(** The process after a series of attempts, on whatever endpoints. *)
Definition attempts (p : Process) (l : list SpawnAttempt) : Process :=
  foldl (fun p a => (attempt p a).1) p l.

(** The process with [group] added to its blacklist. *)
Definition blacklisted (group : string) (p : Process) : Process :=
  mkProcess ({[group]} ∪ blacklistedGroups p) (syscalls p).

(** ** The life of an endpoint *)

(** What can happen to an endpoint between its construction and the end of
    its destructor: a public call, the destructor's shutdown signal, or one
    turn of a handler's thread. *)
Inductive Op : Type :=
  | OpRegisterService (uuid service : string)
  | OpEnablePeriodicSearch (enable : bool) (now : nat -> Z)
  | OpEnablePeriodicNotify (enable : bool) (now : nat -> Z)
  | OpGetServerURLs (ipVer' : Z) (only : bool)
  | OpShutdown
  | OpHandlerLoop (i : nat) (inp : LoopInput).

Definition step (ep : SoapySSDPEndpoint) (op : Op) : result SoapySSDPEndpoint :=
  match op with
  | OpRegisterService uuid service => Ok (registerService uuid service ep)
  | OpEnablePeriodicSearch enable now => Ok (enablePeriodicSearch enable now ep)
  | OpEnablePeriodicNotify enable now => Ok (enablePeriodicNotify enable now ep)
  | OpGetServerURLs _ _ => Ok ep
  | OpShutdown => Ok (shutdown ep)
  | OpHandlerLoop i inp => runHandler ep i inp
  end.

Fixpoint exec (ep : SoapySSDPEndpoint) (ops : list Op) : result SoapySSDPEndpoint :=
  match ops with
  | [] => Ok ep
  | op :: rest => let* ep' := step ep op in exec ep' rest
  end.

Definition isRegisterService (op : Op) : bool :=
  match op with
  | OpRegisterService _ _ => true
  | _ => false
  end.

End Endpoint.

(** ** The merged view, as the specification words it *)

(** The cache of the handler whose family is [v]; empty when the endpoint has
    no handler of that family. *)
Fixpoint familyCache (v : Z) (hs : list SoapySSDPEndpointData) : gmap string (string * Z) :=
  match hs with
  | [] => ∅
  | data :: rest => if ipVer data =? v then usnToURL data else familyCache v rest
  end.

(** The entry for [usn] of the first handler, in the endpoint's order, whose
    cache has one. *)
Fixpoint firstEntry (usn : string) (hs : list SoapySSDPEndpointData) : option (string * Z) :=
  match hs with
  | [] => None
  | data :: rest =>
      match usnToURL data !! usn with
      | Some entry => Some entry
      | None => firstEntry usn rest
      end
  end.

(** "For each USN, prefer the entry learned by the Handler whose family
    matches; if exclusiveOnly is set, entries from non-matching Handlers are
    excluded entirely; otherwise they fill gaps." *)
Definition preferredEntry (v : Z) (only : bool) (hs : list SoapySSDPEndpointData)
    (usn : string) : option (string * Z) :=
  match familyCache v hs !! usn with
  | Some entry => Some entry
  | None => if only then None else firstEntry usn hs
  end.

(** "Any cache entry returned by a query has expiry strictly after now at
    query time", for the queries of every family with and without [only]. *)
Definition queryFresh (ep : SoapySSDPEndpoint) (now : Z) : Prop :=
  forall (v : Z) (only : bool),
    map_Forall (fun _ entry => now < entry.2) (usnPrefToURL ep v only).

(** ** Concrete data *)

(** Modelled from the spec: the locator formatter and parser of SoapyURLUtils
    ("scheme, host, port: parse from and render to string"), with an IPv6
    node written between brackets, together with fixed identification
    strings.  It serves where a
    statement is evaluated on concrete data; every general statement below
    holds for any [Platform]. *)
Definition split_on (pat s : string) : option (string * string) :=
  match String.index 0 pat s with
  | Some i => Some (String.substring 0 i s, substr (i + String.length pat) s)
  | None => None
  end.

(** The walk over what follows the scheme: a node, between brackets when it
    is an IPv6 address, then a colon and the service. *)
Fixpoint parse_node_service (s : string) (inBracket inService : bool)
    (node service : string) : string * string :=
  match s with
  | EmptyString => (node, service)
  | String ch rest =>
      if (inBracket && Ascii.eqb ch "]")%bool
      then parse_node_service rest false inService node service
      else if (negb inBracket && Ascii.eqb ch "[")%bool
      then parse_node_service rest true inService node service
      else if inBracket
      then parse_node_service rest inBracket inService (node +:+ String ch "") service
      else if inService
      then parse_node_service rest inBracket inService node (service +:+ String ch "")
      else if Ascii.eqb ch ":"
      then parse_node_service rest inBracket true node service
      else parse_node_service rest inBracket inService (node +:+ String ch "") service
  end.

Definition reference_parseURL (s : string) : SoapyURL :=
  let '(scheme, rest) :=
    match split_on "://" s with
    | Some (scheme, rest) => (scheme, rest)
    | None => ("", s)
    end in
  let '(node, service) := parse_node_service rest false false "" "" in
  mkURL scheme node service.

Definition reference_toString (url : SoapyURL) : string :=
  (if String.eqb (getScheme url) "" then "" else getScheme url +:+ "://")
  +:+ (match String.index 0 ":" (getNode url) with
       | Some _ => "[" +:+ getNode url +:+ "]"
       | None => getNode url
       end)
  +:+ (if String.eqb (getService url) "" then "" else ":" +:+ getService url).

Definition referencePlatform : Platform :=
  {| parseURL := reference_parseURL;
     toString := reference_toString;
     getHostName := "sdr-host";
     getUserAgent := "SoapyRemote" |}.

Section Concrete.
Local Existing Instance referencePlatform.

(** A fresh process, and the endpoint of a host without IPv6 whose join and
    bind succeed: one handler, for IPv4. *)
Definition process0 : Process := mkProcess ∅ [].
Definition endpoint4 : SoapySSDPEndpoint :=
  (SoapySSDPEndpoint_new process0 (mkSetupInput false 0 0 0 0)).2.

(** The endpoint of a host with both families. *)
Definition endpoint46 : SoapySSDPEndpoint :=
  (SoapySSDPEndpoint_new process0 (mkSetupInput true 0 0 0 0)).2.

(** An alive announcement of a peer, with the given CACHE-CONTROL value. *)
Definition peerNotify (usn location cacheControl : string) : SoapyHTTPHeader :=
  mkHeader "NOTIFY * HTTP/1.1"
    [("HOST", "239.255.255.250:1900");
     ("CACHE-CONTROL", cacheControl);
     ("LOCATION", location);
     ("NT", SOAPY_REMOTE_TARGET);
     ("USN", usn);
     ("NTS", NTS_ALIVE)].

Definition peerUSN : string := "uuid:peer-1::" +:+ SOAPY_REMOTE_TARGET.

(** A turn of a handler's loop at clock reading [t], with or without a
    datagram. *)
Definition idleTurn (t : Z) : LoopInput := mkLoopInput NoDatagram "" t t t t.
Definition recvTurn (header : SoapyHTTPHeader) (recvAddr : string) (t : Z) : LoopInput :=
  mkLoopInput (RecvFrom 200 header recvAddr) "" t t t t.

(** The endpoint of [endpoint4] after [enablePeriodicSearch(true)] at clock
    reading 0, and after [registerService] and [enablePeriodicNotify(true)]
    at clock reading 0. *)
Definition searching4 : SoapySSDPEndpoint :=
  enablePeriodicSearch true (fun _ => 0) endpoint4.
Definition notifying4 : SoapySSDPEndpoint :=
  enablePeriodicNotify true (fun _ => 0) (registerService "node-1" "55132" endpoint4).

(** [endpoint4] after an alive announcement of a peer with max-age=30 was
    handled at clock reading 0, and an idle turn of the loop one tick before
    the entry expires. *)
Definition announce30 : list Op :=
  [OpHandlerLoop 0
     (recvTurn (peerNotify peerUSN "tcp://sdr-peer:55132" "max-age=30")
               "udp://192.168.1.7:1900" 0);
   OpHandlerLoop 0 (idleTurn (seconds 30 - 1))].
Definition cached4 : SoapySSDPEndpoint :=
  match exec endpoint4 announce30 with
  | Ok ep => ep
  | Throw _ => endpoint4
  end.

(** [endpoint46] after its IPv4 handler heard peer 1, and its IPv6 handler
    heard peer 1 and peer 2. *)
Definition peerUSN2 : string := "uuid:peer-2::" +:+ SOAPY_REMOTE_TARGET.
Definition announce46 : list Op :=
  [OpHandlerLoop 0
     (recvTurn (peerNotify peerUSN "tcp://sdr-peer:55132" "max-age=30")
               "udp://192.168.1.7:1900" 0);
   OpHandlerLoop 1
     (recvTurn (peerNotify peerUSN "tcp://sdr-peer:55132" "max-age=30")
               "udp://[fe80::7]:1900" 0);
   OpHandlerLoop 1
     (recvTurn (peerNotify peerUSN2 "tcp://sdr-other:1234" "max-age=30")
               "udp://[fe80::9]:1900" 0)].
Definition cached46 : SoapySSDPEndpoint :=
  match exec endpoint46 announce46 with
  | Ok ep => ep
  | Throw _ => endpoint46
  end.

(** The IPv4 handler once it has heard peer 1, a departure message of that
    peer, and an announcement of the peer that names another host. *)
Definition heard4 : SoapySSDPEndpointData :=
  mkData 4 [] "udp://239.255.255.250:1900" true 0 0
         {[ peerUSN := ("tcp://192.168.1.7:55132", seconds 30) ]}.
Definition peerByebye : SoapyHTTPHeader :=
  mkHeader "NOTIFY * HTTP/1.1"
    [("HOST", "239.255.255.250:1900");
     ("NT", SOAPY_REMOTE_TARGET);
     ("USN", peerUSN);
     ("NTS", NTS_BYEBYE)].
Definition peerMoved : SoapyHTTPHeader :=
  peerNotify peerUSN "tcp://elsewhere.example:4000" "max-age=1800".

(** An attempt for the IPv4 group whose join fails (bind result unused). *)
Definition joinFails4 : SpawnAttempt :=
  mkAttempt (mkEndpoint false false false false "" "" [])
            "0.0.0.0" SSDP_MULTICAST_ADDR_IPV4 4 (-1) 0.

(** A life of [endpoint4]: a registration, two toggles, a turn of the loop,
    the shutdown signal and the last turn of the handler's thread. *)
Definition life4 : list Op :=
  [OpEnablePeriodicSearch true (fun _ => 0);
   OpRegisterService "node-1" "55132";
   OpEnablePeriodicNotify false (fun _ => 1);
   OpHandlerLoop 0 (idleTurn 2);
   OpGetServerURLs 4 false;
   OpShutdown;
   OpHandlerLoop 0 (idleTurn 3)].
Definition ended4 : SoapySSDPEndpoint :=
  match exec endpoint4 life4 with
  | Ok ep => ep
  | Throw _ => endpoint4
  end.

(** [endpoint4] with a service registered, a search request whose ST is the
    USN of that node, and the search message of another node. *)
Definition registered4 : SoapySSDPEndpoint := registerService "node-1" "55132" endpoint4.
Definition searchForUSN : SoapyHTTPHeader :=
  mkHeader "M-SEARCH * HTTP/1.1"
    [("HOST", "239.255.255.250:1900");
     ("MAN", MAN_DISCOVER);
     ("MX", "2");
     ("ST", "uuid:node-1::" +:+ SOAPY_REMOTE_TARGET)].
Definition peerSearch : SoapyHTTPHeader := searchHeader heard4.

(** A turn of the loop whose [recvfrom] fails, at clock reading [t]. *)
Definition failedTurn (t : Z) : LoopInput :=
  mkLoopInput (RecvFrom (-1) (newHeader "") "") "" t t t t.

End Concrete.

(** ** Decimal numerals *)

(** The character of a decimal digit, the numeral written with a list of
    digits (most significant first), and the number it denotes. *)
Definition digit_char (d : Z) : ascii := ascii_of_nat (48 + Z.to_nat d).

Fixpoint decimal (ds : list Z) : string :=
  match ds with
  | [] => EmptyString
  | d :: rest => String (digit_char d) (decimal rest)
  end.

Definition decimal_value (ds : list Z) : Z :=
  foldl (fun acc d => acc * 10 + d) 0 ds.

(** The first character of [s], if any, is no decimal digit. *)
Definition no_leading_digit (s : string) : Prop :=
  match s with
  | EmptyString => True
  | String c _ => digit_of c = None
  end.

(** ** The destructor *)

Section Teardown.
Context `{Platform}.

(** What is left of a handler's thread once [done] is true.  The thread
    tests [done] only at the top of its loop: when the flag is set it is
    either about to make that test ([pending] is [None]) or inside an
    iteration that passed the test before ([pending] holds what that
    iteration takes from outside), and the iteration runs to its end.  Unless
    that iteration returned on a receive error, the thread then leaves the
    loop, sends the disconnect notification and ends; [exitInp] carries the
    clock reading of that send.  A thread that had ended before is joined at
    once. *)
Definition joinThread (ep : SoapySSDPEndpoint) (data : SoapySSDPEndpointData)
    (pending : option LoopInput) (exitInp : LoopInput) : result SoapySSDPEndpointData :=
  if thread data then
    let* data :=
      match pending with
      | Some inp => handlerLoop_body ep data inp
      | None => Ok data
      end in
    if thread data then handlerLoop ep data exitInp else Ok data
  else Ok data.

(** The joins of the destructor's loop over [handlers], from position [i]
    on. *)
Fixpoint joinThreads (ep : SoapySSDPEndpoint) (i : nat) (hs : list SoapySSDPEndpointData)
    (pending : nat -> option LoopInput) (exitInp : nat -> LoopInput)
    : result (list SoapySSDPEndpointData) :=
  match hs with
  | [] => Ok []
  | data :: rest =>
      let* data' := joinThread ep data (pending i) (exitInp i) in
      let* rest' := joinThreads ep (S i) rest pending exitInp in
      Ok (data' :: rest')
  end.

(** [SoapySSDPEndpoint::~SoapySSDPEndpoint]: [done = true], then every
    handler's thread is joined. *)
Definition SoapySSDPEndpoint_delete (ep : SoapySSDPEndpoint)
    (pending : nat -> option LoopInput) (exitInp : nat -> LoopInput)
    : result SoapySSDPEndpoint :=
  let* hs := joinThreads (shutdown ep) 0 (handlers ep) pending exitInp in
  Ok (set_handlers hs (shutdown ep)).

End Teardown.

(** From [data] to [data'] the handler kept its group and sent, in addition
    to what it had sent, only datagrams addressed to members of [dests]. *)
Definition sendsOnlyTo (dests : list string) (data data' : SoapySSDPEndpointData) : Prop :=
  groupURL data' = groupURL data /\
  exists new, sock data' = sock data ++ new /\
              Forall (fun sent : Datagram => sent.1 ∈ dests) new.

(** * Properties *)

Example endpoint4_state :
  endpoint4 =
  mkEndpoint false false false false "" ""
    [mkData 4 [] "udp://239.255.255.250:1900" true 0 0 ∅].
Proof. vm_compute. reflexivity. Qed.

Example endpoint46_state :
  endpoint46 =
  mkEndpoint false false false false "" ""
    [mkData 4 [] "udp://239.255.255.250:1900" true 0 0 ∅;
     mkData 6 [] "udp://[ff02::c]:1900" true 0 0 ∅].
Proof. vm_compute. reflexivity. Qed.

(** ** getCacheDuration *)

Example getCacheDuration_plain :
  getCacheDuration (peerNotify peerUSN "tcp://h:1" "max-age=30") = Ok 30.
Proof. vm_compute. reflexivity. Qed.

Example getCacheDuration_spaces_and_tail :
  getCacheDuration (peerNotify peerUSN "tcp://h:1" "max-age =  1800, public") = Ok 1800.
Proof. vm_compute. reflexivity. Qed.

Example getCacheDuration_not_a_number :
  getCacheDuration (peerNotify peerUSN "tcp://h:1" "max-age=soon") = Ok 120.
Proof. vm_compute. reflexivity. Qed.

Example getCacheDuration_no_max_age :
  getCacheDuration (peerNotify peerUSN "tcp://h:1" "no-cache") = Ok 120.
Proof. vm_compute. reflexivity. Qed.

Example getCacheDuration_too_large :
  getCacheDuration (peerNotify peerUSN "tcp://h:1" "max-age=99999999999999999999") = Ok 120.
Proof. vm_compute. reflexivity. Qed.

Lemma getCacheDuration_absent (header : SoapyHTTPHeader) :
  getField header "CACHE-CONTROL" = "" ->
  getCacheDuration header = Ok CACHE_DURATION_SECONDS.
Proof. intros Hcc. unfold getCacheDuration. rewrite Hcc. reflexivity. Qed.

(** The white-space loop leaves by an exception exactly when nothing but
    white space follows. *)
Lemma skip_isspace_at_throw (suffix : string) (pos : nat) (e : exn) :
  skip_isspace_at suffix pos = Throw e <->
  e = out_of_range /\ skip_spaces suffix = "".
Proof.
  revert pos. induction suffix as [|c rest IH]; intros pos; simpl.
  - split; [intros [= <-]; auto | intros [-> _]; reflexivity].
  - destruct (isspace c); [apply IH|].
    split; [discriminate | intros [_ Hs]; discriminate].
Qed.

Lemma skip_isspace_at_ok (suffix : string) (pos : nat) :
  skip_spaces suffix <> "" ->
  exists pos', skip_isspace_at suffix pos = Ok pos'.
Proof.
  revert pos. induction suffix as [|c rest IH]; intros pos Hne; simpl in *.
  - congruence.
  - destruct (isspace c); [apply IH, Hne | eauto].
Qed.

(** X1: [getCacheDuration] leaves by an exception exactly when the field has
    max-age, then an equals sign at or after it (the first of the field),
    and nothing but white space after that sign; the exception is then
    [out_of_range]. *)
Lemma getCacheDuration_throw (header : SoapyHTTPHeader) (e : exn) :
  getCacheDuration header = Throw e <->
  e = out_of_range /\
  exists maxAgePos equalsPos,
    str_find "max-age" (getField header "CACHE-CONTROL") = Some maxAgePos /\
    str_find "=" (getField header "CACHE-CONTROL") = Some equalsPos /\
    (maxAgePos <= equalsPos)%nat /\
    skip_spaces (substr (equalsPos + 1) (getField header "CACHE-CONTROL")) = "".
Proof.
  unfold getCacheDuration.
  destruct (String.eqb_spec (getField header "CACHE-CONTROL") "") as [Hcc|_].
  { rewrite Hcc. split; [discriminate|]. intros (_ & p & q & Hp & _). discriminate Hp. }
  destruct (str_find "max-age" _) as [p|].
  2:{ split; [discriminate | intros (_ & ? & ? & [=] & _)]. }
  destruct (str_find "=" _) as [q|].
  2:{ split; [discriminate | intros (_ & ? & ? & _ & [=] & _)]. }
  destruct (Nat.ltb_spec q p) as [Hlt|Hle].
  { split; [discriminate | intros (_ & ? & ? & [= <-] & [= <-] & Hle & _); lia]. }
  destruct (skip_isspace_at _ _) as [pos|e'] eqn:Hskip; simpl.
  - split; [discriminate|]. intros (_ & ? & ? & [= <-] & [= <-] & _ & Hblank).
    assert (Hthrow : skip_isspace_at
                       (substr (q + 1) (getField header "CACHE-CONTROL")) (q + 1)
                     = Throw out_of_range)
      by (apply skip_isspace_at_throw; auto).
    congruence.
  - apply skip_isspace_at_throw in Hskip as [-> Hblank]. split.
    + intros [= <-]. split; [reflexivity|]. exists p, q. auto.
    + intros [-> _]. reflexivity.
Qed.

(** The equals sign that counts is the first of the field: an assignment
    before max-age hides the max-age value. *)
Example getCacheDuration_first_equals :
  getCacheDuration (peerNotify peerUSN "tcp://h:1" "s-maxage=5, max-age=30") = Ok 120.
Proof. vm_compute. reflexivity. Qed.

Example getCacheDuration_signs :
  getCacheDuration (peerNotify peerUSN "tcp://h:1" "max-age=+7") = Ok 7 /\
  getCacheDuration (peerNotify peerUSN "tcp://h:1" "max-age= -1") = Ok (-1) /\
  getCacheDuration (peerNotify peerUSN "tcp://h:1" "max-age=4294967297") = Ok 1.
Proof. vm_compute. repeat split; reflexivity. Qed.

Example getCacheDuration_blank_value :
  getCacheDuration (peerNotify peerUSN "tcp://h:1" "max-age=  ") = Throw out_of_range.
Proof. vm_compute. reflexivity. Qed.

(** C2 (at the failing input): for a header whose CACHE-CONTROL field is
    max-age= with nothing after the equals sign, [getCacheDuration] does not
    return the default duration: the bounds-checked [at] of the white-space
    loop throws [out_of_range] before the guarded [stoul] is reached. *)
Theorem getCacheDuration_empty_value_throws :
  getCacheDuration (peerNotify peerUSN "tcp://sdr-peer:55132" "max-age=")
  = Throw out_of_range.
Proof. vm_compute. reflexivity. Qed.

(** The exception is not caught on the way up: the turn of the loop that
    receives the announcement ends by it. *)
Lemma runHandler_empty_value_throws :
  runHandler (H := referencePlatform) endpoint4 0
    (recvTurn (peerNotify peerUSN "tcp://sdr-peer:55132" "max-age=") "udp://192.168.1.7:1900" 0)
  = Throw out_of_range.
Proof. vm_compute. reflexivity. Qed.

(** ** Periodic triggers *)

Section Triggers.
Context `{Platform}.

Lemma sock_sendSearchHeader (data : SoapySSDPEndpointData) (now : Z) :
  sock (sendSearchHeader data now) = sock data ++ [(groupURL data, searchHeader data)].
Proof. reflexivity. Qed.

Lemma sock_sendNotifyHeader (ep : SoapySSDPEndpoint) (data : SoapySSDPEndpointData)
    (nts : string) (now : Z) :
  sock (sendNotifyHeader ep data nts now) =
  if serviceRegistered ep then sock data ++ [(groupURL data, notifyHeader ep data nts)]
  else sock data.
Proof. unfold sendNotifyHeader. destruct (serviceRegistered ep); reflexivity. Qed.

(** X18: the test the loop makes, [last > timeNow + 60 s], fails whenever
    the last send is not in the future of [timeNow]: with a clock that does
    not run backwards, the timer part of a turn of the loop sends neither a
    search nor an announcement, whatever the flags and however long ago the
    last send. *)
Lemma sweepAndTriggers_silent (ep : SoapySSDPEndpoint) (data : SoapySSDPEndpointData)
    (timeNow tSearch tNotify : Z) :
  lastTimeSearch data <= timeNow ->
  lastTimeNotify data <= timeNow ->
  sock (sweepAndTriggers ep data timeNow tSearch tNotify) = sock data.
Proof.
  intros Hs Hn. unfold sweepAndTriggers.
  assert (Hpos : 0 < seconds TRIGGER_TIMEOUT_SECONDS) by reflexivity.
  set (data1 := set_usnToURL _ data).
  assert (Hs1 : (timeNow + seconds TRIGGER_TIMEOUT_SECONDS <? lastTimeSearch data1) = false)
    by (apply Z.ltb_ge; simpl; lia).
  rewrite Hs1, andb_false_r.
  assert (Hn1 : (timeNow + seconds TRIGGER_TIMEOUT_SECONDS <? lastTimeNotify data1) = false)
    by (apply Z.ltb_ge; simpl; lia).
  rewrite Hn1, andb_false_r. reflexivity.
Qed.

End Triggers.

(** C1 (at the failing input): periodic search is enabled, the handler's
    last search was sent at clock reading 0, and a turn of its loop runs 61
    seconds later: the turn sends nothing and leaves the endpoint as it was.
    The same holds for periodic notify with a registered service. *)
Theorem periodic_triggers_silent_after_interval :
  periodicSearchEnabled searching4 = true /\
  lastTimeSearch <$> handlers searching4 = [0] /\
  runHandler (H := referencePlatform) searching4 0 (idleTurn (seconds 61)) = Ok searching4 /\
  periodicNotifyEnabled notifying4 = true /\
  serviceRegistered notifying4 = true /\
  lastTimeNotify <$> handlers notifying4 = [0] /\
  runHandler (H := referencePlatform) notifying4 0 (idleTurn (seconds 61)) = Ok notifying4.
Proof. vm_compute. repeat split; reflexivity. Qed.

(** ** Enabling the periodic triggers *)

(** C3 (counterexample): [enablePeriodicSearch(false)] on an endpoint with
    one handler that has sent nothing makes that handler send one datagram. *)
Lemma enablePeriodicSearch_off_sends :
  length <$> (sock <$> handlers endpoint4) = [0%nat] /\
  length <$> (sock <$> handlers
    (enablePeriodicSearch (H := referencePlatform) false (fun _ => 0) endpoint4)) = [1%nat].
Proof. vm_compute. split; reflexivity. Qed.

(** [enablePeriodicNotify(true)] sends nothing while no service is
    registered. *)
Lemma enablePeriodicNotify_on_unregistered_silent :
  serviceRegistered endpoint4 = false /\
  length <$> (sock <$> handlers
    (enablePeriodicNotify (H := referencePlatform) true (fun _ => 0) endpoint4)) = [0%nat].
Proof. vm_compute. split; reflexivity. Qed.

Section Enable.
Context `{Platform}.

Lemma fmap_imap_const {A B C : Type} (f : nat -> A -> B) (g : B -> C) (h : A -> C)
    (l : list A) :
  (forall i x, g (f i x) = h x) -> g <$> imap f l = h <$> l.
Proof.
  intros Hgf. rewrite fmap_imap, <- imap_const.
  apply imap_ext. intros i x _. apply Hgf.
Qed.

(** C3 (amended): both operations store the given value in their flag and,
    whatever that value, make every handler send: [enablePeriodicSearch] one
    search to the handler's group; [enablePeriodicNotify] one alive
    announcement to the handler's group when a service is registered, and
    nothing when none is. *)
Theorem enablePeriodic_sends_whatever_the_flag (ep : SoapySSDPEndpoint)
    (enable : bool) (now : nat -> Z) :
  periodicSearchEnabled (enablePeriodicSearch enable now ep) = enable /\
  sock <$> handlers (enablePeriodicSearch enable now ep) =
    (fun data => sock data ++ [(groupURL data, searchHeader data)]) <$> handlers ep /\
  periodicNotifyEnabled (enablePeriodicNotify enable now ep) = enable /\
  sock <$> handlers (enablePeriodicNotify enable now ep) =
    (fun data =>
       if serviceRegistered ep
       then sock data ++ [(groupURL data, notifyHeader ep data NTS_ALIVE)]
       else sock data) <$> handlers ep.
Proof.
  repeat split.
  - unfold enablePeriodicSearch; cbn. apply fmap_imap_const. reflexivity.
  - unfold enablePeriodicNotify; cbn. apply fmap_imap_const.
    intros i data. rewrite sock_sendNotifyHeader. reflexivity.
Qed.

(** Nothing else of the endpoint changes, and the send is recorded as the
    handler's last. *)
Lemma enablePeriodicSearch_frame (ep : SoapySSDPEndpoint) (enable : bool) (now : nat -> Z) :
  let ep' := enablePeriodicSearch enable now ep in
  serviceRegistered ep' = serviceRegistered ep /\
  periodicNotifyEnabled ep' = periodicNotifyEnabled ep /\
  done ep' = done ep /\ uuid ep' = uuid ep /\ service ep' = service ep /\
  usnToURL <$> handlers ep' = usnToURL <$> handlers ep /\
  lastTimeSearch <$> handlers ep' = imap (fun i _ => now i) (handlers ep).
Proof.
  cbn. repeat split.
  - apply fmap_imap_const. reflexivity.
  - rewrite fmap_imap. apply imap_ext. reflexivity.
Qed.

End Enable.

(** ** Search requests *)

Lemma string_length_append (s1 s2 : string) :
  String.length (s1 +:+ s2) = (String.length s1 + String.length s2)%nat.
Proof. induction s1 as [|c s1 IH]; simpl; [reflexivity | now rewrite IH]. Qed.

Section SearchRequest.
Context `{Platform}.

Lemma stForUs_spec (ep : SoapySSDPEndpoint) (st : string) :
  stForUs ep st =
  bool_decide (st = "ssdp:all" \/ st = SOAPY_REMOTE_TARGET \/ st = "uuid:" +:+ uuid ep).
Proof.
  unfold stForUs. apply eq_true_iff_eq.
  rewrite bool_decide_eq_true, !orb_true_iff, !String.eqb_eq. tauto.
Qed.

(** C4 (amended): a search request changes the handler only when a service
    is registered, MAN is the quoted discover token and ST is ssdp:all, the
    service target or uuid: followed by this node's bare identity (not the
    identity-qualified USN); it then sends
    two datagrams, first the response to the requester's address, with the
    service target as ST, this node's locator and its USN, then an alive
    announcement to the group with the same USN. *)
Theorem handleSearchRequest_spec (ep : SoapySSDPEndpoint) (data : SoapySSDPEndpointData)
    (request : SoapyHTTPHeader) (recvAddr date : string) (now : Z) :
  let accepted :=
    (serviceRegistered ep
     && bool_decide (getField request "MAN" = MAN_DISCOVER)
     && bool_decide (getField request "ST" = "ssdp:all"
                     \/ getField request "ST" = SOAPY_REMOTE_TARGET
                     \/ getField request "ST" = "uuid:" +:+ uuid ep))%bool in
  handleSearchRequest ep data request recvAddr date now =
    (if accepted
     then set_lastTimeNotify now
            (set_sock (sock data ++ [(recvAddr, searchResponse ep date);
                                     (groupURL data, notifyHeader ep data NTS_ALIVE)]) data)
     else data) /\
  getLine0 (searchResponse ep date) = "HTTP/1.1 200 OK" /\
  getField (searchResponse ep date) "ST" = SOAPY_REMOTE_TARGET /\
  getField (searchResponse ep date) "LOCATION" = toString (mkURL "tcp" getHostName (service ep)) /\
  getField (searchResponse ep date) "USN" = "uuid:" +:+ uuid ep +:+ "::" +:+ SOAPY_REMOTE_TARGET /\
  getLine0 (notifyHeader ep data NTS_ALIVE) = "NOTIFY * HTTP/1.1" /\
  getField (notifyHeader ep data NTS_ALIVE) "NTS" = NTS_ALIVE /\
  getField (notifyHeader ep data NTS_ALIVE) "USN" = getField (searchResponse ep date) "USN".
Proof.
  cbv zeta. split; [|repeat split].
  unfold handleSearchRequest. rewrite stForUs_spec.
  destruct (serviceRegistered ep) eqn:Hreg; simpl; [|reflexivity].
  destruct (String.eqb_spec (getField request "MAN") MAN_DISCOVER) as [Hman|Hman].
  - rewrite (bool_decide_eq_true_2 _ Hman); simpl.
    destruct (bool_decide _) eqn:Hst; simpl; [|reflexivity].
    unfold sendNotifyHeader. rewrite Hreg; simpl.
    unfold sendHeader; simpl. rewrite <- app_assoc. reflexivity.
  - rewrite (bool_decide_eq_false_2 _ Hman); simpl. reflexivity.
Qed.

(** The USN this node announces is itself no search target the node answers
    to: the identity-qualified target of a request is uuid: followed by the
    identity, without the service target after it. *)
Lemma stForUs_ownUSN (ep : SoapySSDPEndpoint) : stForUs ep (ownUSN ep) = false.
Proof.
  rewrite stForUs_spec. apply bool_decide_eq_false.
  unfold ownUSN. intros [Hall|[Htarget|Huuid]].
  - discriminate Hall.
  - discriminate Htarget.
  - simpl in Huuid. injection Huuid as Huuid.
    assert (Hlen : String.length (uuid ep +:+ "::" +:+ SOAPY_REMOTE_TARGET)
                   = String.length (uuid ep)) by (f_equal; exact Huuid).
    rewrite !string_length_append in Hlen. simpl in Hlen. lia.
Qed.

End SearchRequest.

(** C4 (counterexample): a node with a registered service receives a search
    request with the discover token whose ST is the node's own
    identity-qualified target, the USN it announces: the request is dropped,
    the handler is left as it was and nothing is sent. *)
Lemma search_for_identity_qualified_target_dropped :
  serviceRegistered registered4 = true /\
  getField searchForUSN "MAN" = MAN_DISCOVER /\
  getField searchForUSN "ST" = ownUSN registered4 /\
  getField (notifyHeader (H := referencePlatform) registered4 heard4 NTS_ALIVE) "USN"
    = getField searchForUSN "ST" /\
  handleSearchRequest (H := referencePlatform) registered4 heard4 searchForUSN
    "udp://192.168.1.9:1900" "" 5 = heard4 /\
  sock heard4 = [].
Proof. vm_compute. repeat split; reflexivity. Qed.

(** ** The expiry sweep *)

Lemma map_fold_erase_lookup {A : Type} (keep : A -> bool) (base m : gmap string A)
    (k : string) :
  map_fold (fun i x acc => if keep x then acc else delete i acc) base m !! k =
  match m !! k with
  | Some x => if keep x then base !! k else None
  | None => base !! k
  end.
Proof.
  revert k.
  apply (map_fold_weak_ind
    (fun r m' => forall k, r !! k = match m' !! k with
                                    | Some x => if keep x then base !! k else None
                                    | None => base !! k
                                    end)).
  - intros k. rewrite lookup_empty. reflexivity.
  - intros i x m' r Hfresh IH k.
    destruct (decide (i = k)) as [->|Hne].
    + rewrite lookup_insert_eq. specialize (IH k). rewrite Hfresh in IH.
      destruct (keep x); [exact IH | apply lookup_delete_eq].
    + rewrite lookup_insert_ne by exact Hne.
      destruct (keep x); [apply IH | rewrite lookup_delete_ne by exact Hne; apply IH].
Qed.

(** The walk with erasures is the filter that keeps the entries whose expiry
    is strictly after [timeNow]. *)
Lemma removeOldEntries_filter (timeNow : Z) (m : gmap string (string * Z)) :
  removeOldEntries timeNow m =
  filter (fun kv : string * (string * Z) => timeNow < kv.2.2) m.
Proof.
  apply map_eq. intros k. apply option_eq. intros e.
  unfold removeOldEntries.
  rewrite (map_fold_erase_lookup (fun entry : string * Z => timeNow <? entry.2)).
  rewrite map_lookup_filter_Some. simpl.
  destruct (m !! k) as [e'|] eqn:Hk.
  - destruct (Z.ltb_spec timeNow e'.2) as [Hlt|Hge].
    + split; [intros [= <-]; auto | intros [Heq _]; exact Heq].
    + split; [discriminate | intros [[= <-] Hlt]; lia].
  - split; [discriminate | intros [? _]; discriminate].
Qed.

(** ** The merged view of the caches *)

(** The inner loop of [getServerURLs]: the entries of a handler of the asked
    family override what was collected, the entries of another handler only
    fill gaps, and are skipped altogether under [only]. *)
Lemma mergeHandler_union (v : Z) (only : bool) (acc : gmap string (string * Z))
    (data : SoapySSDPEndpointData) :
  mergeHandler v only acc data =
  if ipVer data =? v then usnToURL data ∪ acc
  else if only then acc else acc ∪ usnToURL data.
Proof.
  unfold mergeHandler.
  destruct (ipVer data =? v); simpl.
  - rewrite andb_false_r.
    apply (map_fold_weak_ind (fun r m' => r = m' ∪ acc)).
    + symmetry. apply (left_id_L ∅ (∪)).
    + intros i x m' r _ ->. rewrite andb_false_r. apply insert_union_l.
  - rewrite andb_true_r. destruct only; [reflexivity|].
    apply (map_fold_weak_ind (fun r m' => r = acc ∪ m')).
    + symmetry. apply (right_id_L ∅ (∪)).
    + intros i x m' r Hfresh ->. rewrite andb_true_r.
      rewrite lookup_union_l by exact Hfresh.
      destruct (acc !! i) as [y|] eqn:Hacc.
      * rewrite bool_decide_eq_true_2 by eauto.
        apply map_eq. intros k. rewrite !lookup_union.
        destruct (decide (i = k)) as [->|Hne].
        -- rewrite lookup_insert_eq, Hacc, Hfresh. reflexivity.
        -- rewrite lookup_insert_ne by exact Hne. reflexivity.
      * rewrite bool_decide_eq_false_2 by (intros [? ?]; discriminate).
        apply insert_union_r. exact Hacc.
Qed.

(** Every entry of the merged view is an entry of what was there before or
    of some handler's cache. *)
Lemma foldl_mergeHandler_origin (v : Z) (only : bool) (hs : list SoapySSDPEndpointData)
    (acc : gmap string (string * Z)) (usn : string) (entry : string * Z) :
  foldl (mergeHandler v only) acc hs !! usn = Some entry ->
  acc !! usn = Some entry \/
  exists data, data ∈ hs /\ usnToURL data !! usn = Some entry.
Proof.
  revert acc. induction hs as [|d hs IH]; intros acc; simpl; [auto|].
  intros Hin. apply IH in Hin as [Hacc|(data & Hd & Hx)].
  - rewrite mergeHandler_union in Hacc.
    destruct (ipVer d =? v); [|destruct only].
    + apply lookup_union_Some_raw in Hacc as [Hd|[_ Hacc]]; [right|left; exact Hacc].
      exists d. split; [apply list_elem_of_here | exact Hd].
    + left; exact Hacc.
    + apply lookup_union_Some_raw in Hacc as [Hacc|[_ Hd]]; [left; exact Hacc|right].
      exists d. split; [apply list_elem_of_here | exact Hd].
  - right. exists data. split; [apply list_elem_of_further, Hd | exact Hx].
Qed.

Lemma familyCache_no_match (v : Z) (hs : list SoapySSDPEndpointData) :
  v ∉ ipVer <$> hs -> familyCache v hs = ∅.
Proof.
  induction hs as [|d hs IH]; [reflexivity|]. rewrite fmap_cons. intros Hnotin.
  apply not_elem_of_cons in Hnotin as [Hne Hnotin]. simpl.
  destruct (Z.eqb_spec (ipVer d) v) as [Heq|_]; [congruence | apply IH, Hnotin].
Qed.

(** With at most one handler per family, the merged view is what the
    specification says, from any starting map. *)
Lemma foldl_mergeHandler_lookup (v : Z) (only : bool) (hs : list SoapySSDPEndpointData)
    (acc : gmap string (string * Z)) (usn : string) :
  NoDup (ipVer <$> hs) ->
  foldl (mergeHandler v only) acc hs !! usn =
  match familyCache v hs !! usn with
  | Some entry => Some entry
  | None =>
      match acc !! usn with
      | Some entry => Some entry
      | None => if only then None else firstEntry usn hs
      end
  end.
Proof.
  revert acc. induction hs as [|d hs IH]; intros acc Hnd.
  - simpl. rewrite lookup_empty. destruct (acc !! usn), only; reflexivity.
  - rewrite fmap_cons in Hnd. apply NoDup_cons in Hnd as [Hfresh Hnd].
    cbn [foldl familyCache firstEntry].
    rewrite (IH _ Hnd), mergeHandler_union.
    destruct (Z.eqb_spec (ipVer d) v) as [Heq|Hne].
    + rewrite familyCache_no_match by (rewrite <- Heq; exact Hfresh).
      rewrite lookup_empty, lookup_union.
      destruct (usnToURL d !! usn) as [e|], (acc !! usn); reflexivity.
    + destruct (familyCache v hs !! usn); [reflexivity|].
      destruct only; [reflexivity|].
      rewrite lookup_union.
      destruct (acc !! usn), (usnToURL d !! usn); reflexivity.
Qed.

Lemma firstEntry_Some (usn : string) (hs : list SoapySSDPEndpointData) :
  is_Some (firstEntry usn hs) <-> exists data, data ∈ hs /\ is_Some (usnToURL data !! usn).
Proof.
  induction hs as [|d hs IH]; simpl.
  - split; [intros [? ?]; discriminate | intros (? & Hin & _); inversion Hin].
  - destruct (usnToURL d !! usn) as [e|] eqn:Hd.
    + split; [intros _|eauto]. exists d. rewrite Hd. split; [apply list_elem_of_here | eauto].
    + rewrite IH. split.
      * intros (data & Hin & Hx). exists data. split; [apply list_elem_of_further, Hin | exact Hx].
      * intros (data & Hin & Hx). apply elem_of_cons in Hin as [->|Hin].
        -- rewrite Hd in Hx. destruct Hx; discriminate.
        -- eauto.
Qed.

Lemma familyCache_origin (v : Z) (hs : list SoapySSDPEndpointData) (usn : string) :
  is_Some (familyCache v hs !! usn) ->
  exists data, data ∈ hs /\ is_Some (usnToURL data !! usn).
Proof.
  induction hs as [|d hs IH]; simpl.
  - rewrite lookup_empty. intros [? ?]; discriminate.
  - destruct (ipVer d =? v).
    + intros Hx. exists d. split; [apply list_elem_of_here | exact Hx].
    + intros Hx. apply IH in Hx as (data & Hin & Hx).
      exists data. split; [apply list_elem_of_further, Hin | exact Hx].
Qed.

(** ** The cache and the queries *)

(** C5 (counterexample): a peer's announcement with max-age=30 is handled at
    clock reading 0, and the handler's loop last sweeps one tick before the
    30 seconds are over; a query made at 30 seconds returns the peer's
    locator although the expiry of its entry is not strictly after the time
    of the query. *)
Lemma query_returns_expired_entry :
  exec (H := referencePlatform) endpoint4 announce30 = Ok cached4 /\
  handlers cached4 = [heard4] /\
  getServerURLs cached4 4 true = ["tcp://192.168.1.7:55132"] /\
  ~ queryFresh cached4 (seconds 30).
Proof.
  split; [vm_compute; reflexivity|].
  split; [vm_compute; reflexivity|].
  split; [vm_compute; reflexivity|].
  intros Hfresh.
  assert (Hentry : usnPrefToURL cached4 4 true !! peerUSN
                   = Some ("tcp://192.168.1.7:55132", seconds 30))
    by (vm_compute; reflexivity).
  apply (Hfresh 4 true) in Hentry. simpl in Hentry. lia.
Qed.

Section Cache.
Context `{Platform}.

Lemma usnToURL_sweepAndTriggers (ep : SoapySSDPEndpoint) (data : SoapySSDPEndpointData)
    (timeNow tSearch tNotify : Z) :
  usnToURL (sweepAndTriggers ep data timeNow tSearch tNotify) =
  removeOldEntries timeNow (usnToURL data).
Proof.
  unfold sweepAndTriggers, sendNotifyHeader.
  repeat match goal with |- context [if ?b then _ else _] => destruct b end; reflexivity.
Qed.

(** C5 (amended): the sweep of a turn of the loop keeps exactly the entries
    whose expiry is strictly after the turn's [timeNow], so every entry a
    handler holds right after its sweep expires strictly after that
    [timeNow]; a query reads no clock: every entry of its merged view is an
    entry that some handler's cache holds at that moment, and the list it
    returns is made of the locators of that view. *)
Theorem sweep_keeps_fresh_query_reads_caches (ep : SoapySSDPEndpoint)
    (data : SoapySSDPEndpointData) (timeNow tSearch tNotify : Z) (v : Z) (only : bool) :
  removeOldEntries timeNow (usnToURL data) =
    filter (fun kv : string * (string * Z) => timeNow < kv.2.2) (usnToURL data) /\
  usnToURL (sweepAndTriggers ep data timeNow tSearch tNotify) =
    removeOldEntries timeNow (usnToURL data) /\
  map_Forall (fun _ entry => timeNow < entry.2)
    (usnToURL (sweepAndTriggers ep data timeNow tSearch tNotify)) /\
  map_Forall (fun usn entry =>
                exists data', data' ∈ handlers ep /\ usnToURL data' !! usn = Some entry)
    (usnPrefToURL ep v only) /\
  getServerURLs ep v only =
    (fun pair : string * (string * Z) => pair.2.1) <$> map_to_list (usnPrefToURL ep v only).
Proof.
  split; [apply removeOldEntries_filter|].
  split; [apply usnToURL_sweepAndTriggers|].
  split; [|split; [|reflexivity]].
  - rewrite usnToURL_sweepAndTriggers, removeOldEntries_filter.
    intros usn entry Hin. apply map_lookup_filter_Some in Hin as [_ Hlt]. exact Hlt.
  - intros usn entry Hin. unfold usnPrefToURL in Hin.
    apply foldl_mergeHandler_origin in Hin as [Hempty|Hfound]; [|exact Hfound].
    rewrite lookup_empty in Hempty. discriminate.
Qed.

End Cache.

(** ** getServerURLs *)

Lemma familyCache_of (v : Z) (hs : list SoapySSDPEndpointData) (data : SoapySSDPEndpointData) :
  NoDup (ipVer <$> hs) -> data ∈ hs -> ipVer data = v ->
  familyCache v hs = usnToURL data.
Proof.
  induction hs as [|d hs IH]; intros Hnd Hin Hv; [inversion Hin|].
  rewrite fmap_cons in Hnd. apply NoDup_cons in Hnd as [Hfresh Hnd]. simpl.
  apply elem_of_cons in Hin as [->|Hin].
  - rewrite Hv, Z.eqb_refl. reflexivity.
  - destruct (Z.eqb_spec (ipVer d) v) as [Heq|_]; [|apply IH; assumption].
    exfalso. apply Hfresh. rewrite Heq, <- Hv. apply list_elem_of_fmap_2, Hin.
Qed.

(** C6: on an endpoint with at most one handler per family, the merged view
    under [only] is the cache of the handler of the asked family; without
    [only] it has, for each USN, that handler's entry when it has one and
    otherwise the entry of the first handler that has one, so its USNs are
    those of all the caches together; the list returned holds the locators
    of the view, one for each of its USNs. *)
Theorem getServerURLs_spec (ep : SoapySSDPEndpoint) (v : Z) :
  NoDup (ipVer <$> handlers ep) ->
  usnPrefToURL ep v true = familyCache v (handlers ep) /\
  (forall usn, usnPrefToURL ep v false !! usn = preferredEntry v false (handlers ep) usn) /\
  dom (usnPrefToURL ep v false) = ⋃ ((fun data => dom (usnToURL data)) <$> handlers ep) /\
  (forall only,
     getServerURLs ep v only =
       (fun pair : string * (string * Z) => pair.2.1) <$> map_to_list (usnPrefToURL ep v only) /\
     length (getServerURLs ep v only) = size (dom (usnPrefToURL ep v only))).
Proof.
  intros Hnd.
  assert (Hlookup : forall only usn,
            usnPrefToURL ep v only !! usn = preferredEntry v only (handlers ep) usn).
  { intros only usn. unfold usnPrefToURL, preferredEntry.
    rewrite foldl_mergeHandler_lookup by exact Hnd. rewrite lookup_empty. reflexivity. }
  split; [|split; [apply Hlookup|split]].
  - apply map_eq. intros usn. rewrite Hlookup. unfold preferredEntry.
    destruct (familyCache v (handlers ep) !! usn); reflexivity.
  - apply set_eq. intros usn.
    rewrite elem_of_dom, Hlookup, elem_of_union_list. unfold preferredEntry. split.
    + intros Hsome.
      assert (Hd : exists data, data ∈ handlers ep /\ is_Some (usnToURL data !! usn)).
      { destruct (familyCache v (handlers ep) !! usn) as [e|] eqn:Hfam.
        - apply (familyCache_origin v). rewrite Hfam. eauto.
        - apply firstEntry_Some, Hsome. }
      destruct Hd as (data & Hin & Hx).
      exists (dom (usnToURL data)). split; [|apply elem_of_dom, Hx].
      apply (list_elem_of_fmap_2 (fun data => dom (usnToURL data))), Hin.
    + intros (X & HX & Hin).
      apply list_elem_of_fmap in HX as (data & -> & Hdata).
      apply elem_of_dom in Hin.
      destruct (familyCache v (handlers ep) !! usn); [eauto|].
      apply firstEntry_Some. eauto.
  - intros only. split; [reflexivity|].
    unfold getServerURLs. rewrite length_fmap, length_map_to_list, size_dom. reflexivity.
Qed.

(** C6 (witness): the endpoint with both families whose IPv4 handler heard
    peer 1 and whose IPv6 handler heard peers 1 and 2. *)
Lemma getServerURLs_spec_witness :
  NoDup (ipVer <$> handlers cached46) /\
  (usnPrefToURL cached46 4 true = familyCache 4 (handlers cached46) /\
   (forall usn,
      usnPrefToURL cached46 4 false !! usn = preferredEntry 4 false (handlers cached46) usn) /\
   dom (usnPrefToURL cached46 4 false)
     = ⋃ ((fun data => dom (usnToURL data)) <$> handlers cached46) /\
   (forall only,
      getServerURLs cached46 4 only =
        (fun pair : string * (string * Z) => pair.2.1)
          <$> map_to_list (usnPrefToURL cached46 4 only) /\
      length (getServerURLs cached46 4 only) = size (dom (usnPrefToURL cached46 4 only)))).
Proof.
  assert (Hnd : NoDup (ipVer <$> handlers cached46))
    by (apply (bool_decide_unpack (NoDup _)); vm_compute; exact I).
  exact (conj Hnd (getServerURLs_spec cached46 4 Hnd)).
Defined.

Example getServerURLs_cached46 :
  getServerURLs cached46 4 true = ["tcp://192.168.1.7:55132"] /\
  getServerURLs cached46 6 true ≡ₚ ["tcp://[fe80::7]:55132"; "tcp://[fe80::9]:1234"] /\
  getServerURLs cached46 4 false ≡ₚ ["tcp://192.168.1.7:55132"; "tcp://[fe80::9]:1234"] /\
  getServerURLs cached46 6 false ≡ₚ ["tcp://[fe80::7]:55132"; "tcp://[fe80::9]:1234"].
Proof.
  repeat split; vm_compute;
    first [reflexivity | apply Permutation_refl | apply perm_swap].
Qed.

(** ** Peer registration *)

Section Register.
Context `{Platform}.

(** C7: for a message without USN the handler is left as it is; for a
    message with a USN whose NTS field is ssdp:byebye the entry of that USN
    is erased from the cache, present or not, whatever its expiry, and
    nothing else of the handler changes.  The outcome is determined by these
    two fields alone, and no exception is possible. *)
Theorem handleRegisterService_byebye (data : SoapySSDPEndpointData)
    (header : SoapyHTTPHeader) (recvAddr : string) (now : Z) :
  getField header "USN" = "" \/ getField header "NTS" = NTS_BYEBYE ->
  handleRegisterService data header recvAddr now =
    Ok (if String.eqb (getField header "USN") "" then data
        else mkData (ipVer data) (sock data) (groupURL data) (thread data)
                    (lastTimeSearch data) (lastTimeNotify data)
                    (delete (getField header "USN") (usnToURL data))).
Proof.
  intros Hcase. unfold handleRegisterService.
  destruct (String.eqb_spec (getField header "USN") "") as [Husn|Husn]; [reflexivity|].
  destruct Hcase as [Hempty|Hbye]; [contradiction|].
  rewrite Hbye, String.eqb_refl. reflexivity.
Qed.

(** After a departure message the USN has no entry, and every other entry is
    as before. *)
Lemma handleRegisterService_byebye_lookup (data data' : SoapySSDPEndpointData)
    (header : SoapyHTTPHeader) (recvAddr : string) (now : Z) (usn' : string) :
  getField header "USN" <> "" ->
  getField header "NTS" = NTS_BYEBYE ->
  handleRegisterService data header recvAddr now = Ok data' ->
  usnToURL data' !! usn' =
    if decide (usn' = getField header "USN") then None else usnToURL data !! usn'.
Proof.
  intros Husn Hbye. unfold handleRegisterService.
  apply String.eqb_neq in Husn. rewrite Husn, Hbye, String.eqb_refl.
  intros [= <-]. simpl.
  destruct (decide (usn' = getField header "USN")) as [->|Hne].
  - apply lookup_delete_eq.
  - apply lookup_delete_ne. congruence.
Qed.

(** The two ways into peer registration. *)
Lemma handleNotifyRequest_filter (data : SoapySSDPEndpointData)
    (header : SoapyHTTPHeader) (recvAddr : string) (now : Z) :
  handleNotifyRequest data header recvAddr now =
    if bool_decide (getField header "NT" = SOAPY_REMOTE_TARGET)
    then handleRegisterService data header recvAddr now else Ok data.
Proof.
  unfold handleNotifyRequest.
  destruct (String.eqb_spec (getField header "NT") SOAPY_REMOTE_TARGET) as [Heq|Hne].
  - rewrite bool_decide_eq_true_2 by exact Heq. reflexivity.
  - rewrite bool_decide_eq_false_2 by exact Hne. reflexivity.
Qed.

Lemma handleSearchResponse_filter (data : SoapySSDPEndpointData)
    (header : SoapyHTTPHeader) (recvAddr : string) (now : Z) :
  handleSearchResponse data header recvAddr now =
    if bool_decide (getField header "ST" = SOAPY_REMOTE_TARGET)
    then handleRegisterService data header recvAddr now else Ok data.
Proof.
  unfold handleSearchResponse.
  destruct (String.eqb_spec (getField header "ST") SOAPY_REMOTE_TARGET) as [Heq|Hne].
  - rewrite bool_decide_eq_true_2 by exact Heq. reflexivity.
  - rewrite bool_decide_eq_false_2 by exact Hne. reflexivity.
Qed.

(** C8: for a message with a USN, a LOCATION and no ssdp:byebye, whose cache
    duration is [duration], the handler's cache gets for that USN, over
    whatever entry it had, the locator made of the scheme tcp, the node of
    the datagram's source address and the service of the LOCATION field,
    with expiry [now] plus [duration] seconds; the other entries and the
    rest of the handler stay as they were.  This is what an announcement
    whose NT, and a search response whose ST, is the service target does;
    with another NT or ST the handler is left as it is. *)
Theorem handleRegisterService_upsert (data : SoapySSDPEndpointData)
    (header : SoapyHTTPHeader) (recvAddr : string) (now duration : Z) :
  getField header "USN" <> "" ->
  getField header "NTS" <> NTS_BYEBYE ->
  getField header "LOCATION" <> "" ->
  getCacheDuration header = Ok duration ->
  let locator :=
    toString (mkURL "tcp" (getNode (parseURL recvAddr))
                          (getService (parseURL (getField header "LOCATION")))) in
  exists data',
    handleRegisterService data header recvAddr now = Ok data' /\
    usnToURL data' =
      <[getField header "USN" := (locator, now + seconds duration)]> (usnToURL data) /\
    usnToURL data' !! getField header "USN" = Some (locator, now + seconds duration) /\
    (forall usn', usn' <> getField header "USN" ->
                  usnToURL data' !! usn' = usnToURL data !! usn') /\
    (ipVer data', sock data', groupURL data', thread data',
     lastTimeSearch data', lastTimeNotify data')
    = (ipVer data, sock data, groupURL data, thread data,
       lastTimeSearch data, lastTimeNotify data) /\
    handleNotifyRequest data header recvAddr now =
      Ok (if bool_decide (getField header "NT" = SOAPY_REMOTE_TARGET) then data' else data) /\
    handleSearchResponse data header recvAddr now =
      Ok (if bool_decide (getField header "ST" = SOAPY_REMOTE_TARGET) then data' else data).
Proof.
  intros Husn Hnts Hloc Hdur locator.
  assert (Hreg : handleRegisterService data header recvAddr now =
            Ok (set_usnToURL
                  (<[getField header "USN" := (locator, now + seconds duration)]> (usnToURL data))
                  data)).
  { unfold handleRegisterService.
    apply String.eqb_neq in Husn, Hnts, Hloc. rewrite Husn, Hnts, Hloc, Hdur.
    reflexivity. }
  eexists. split; [exact Hreg|]. simpl.
  split; [reflexivity|]. split; [apply lookup_insert_eq|].
  split; [intros usn' Hne; apply lookup_insert_ne; congruence|].
  split; [reflexivity|].
  rewrite handleNotifyRequest_filter, handleSearchResponse_filter, Hreg.
  split; destruct (bool_decide _); reflexivity.
Qed.

(** When the cache duration cannot be computed, nothing is recorded: the
    exception leaves the handler. *)
Lemma handleRegisterService_throw (data : SoapySSDPEndpointData)
    (header : SoapyHTTPHeader) (recvAddr : string) (now : Z) (e : exn) :
  getField header "USN" <> "" ->
  getField header "NTS" <> NTS_BYEBYE ->
  getField header "LOCATION" <> "" ->
  getCacheDuration header = Throw e ->
  handleRegisterService data header recvAddr now = Throw e.
Proof.
  intros Husn Hnts Hloc Hdur. unfold handleRegisterService.
  apply String.eqb_neq in Husn, Hnts, Hloc. rewrite Husn, Hnts, Hloc, Hdur.
  reflexivity.
Qed.

End Register.

(** C7 (witness): the departure message of peer 1 reaches the handler that
    holds an unexpired entry for it. *)
Lemma handleRegisterService_byebye_witness :
  (getField peerByebye "USN" = "" \/ getField peerByebye "NTS" = NTS_BYEBYE) /\
  handleRegisterService (H := referencePlatform) heard4 peerByebye "udp://192.168.1.7:1900" 5 =
    Ok (if String.eqb (getField peerByebye "USN") "" then heard4
        else mkData (ipVer heard4) (sock heard4) (groupURL heard4) (thread heard4)
                    (lastTimeSearch heard4) (lastTimeNotify heard4)
                    (delete (getField peerByebye "USN") (usnToURL heard4))).
Proof.
  assert (Hcase : getField peerByebye "USN" = "" \/ getField peerByebye "NTS" = NTS_BYEBYE)
    by (right; reflexivity).
  exact (conj Hcase
    (handleRegisterService_byebye (H := referencePlatform)
       heard4 peerByebye "udp://192.168.1.7:1900" 5 Hcase)).
Defined.

Example handleRegisterService_byebye_heard4 :
  handleRegisterService (H := referencePlatform) heard4 peerByebye "udp://192.168.1.7:1900" 5
  = Ok (mkData 4 [] "udp://239.255.255.250:1900" true 0 0 ∅).
Proof. vm_compute. reflexivity. Qed.

(** C8 (witness): peer 1 announces again, naming another host and port 4000,
    from the same source address, at clock reading 7. *)
Lemma handleRegisterService_upsert_witness :
  getField peerMoved "USN" <> "" /\
  getField peerMoved "NTS" <> NTS_BYEBYE /\
  getField peerMoved "LOCATION" <> "" /\
  getCacheDuration peerMoved = Ok 1800 /\
  exists data',
    handleRegisterService (H := referencePlatform) heard4 peerMoved "udp://192.168.1.7:1900" 7
      = Ok data' /\
    usnToURL data' =
      <[getField peerMoved "USN" :=
          (@toString referencePlatform
             (mkURL "tcp" (getNode (@parseURL referencePlatform "udp://192.168.1.7:1900"))
                    (getService (@parseURL referencePlatform
                                   (getField peerMoved "LOCATION")))),
           7 + seconds 1800)]> (usnToURL heard4) /\
    usnToURL data' !! getField peerMoved "USN" =
      Some (@toString referencePlatform
              (mkURL "tcp" (getNode (@parseURL referencePlatform "udp://192.168.1.7:1900"))
                     (getService (@parseURL referencePlatform
                                    (getField peerMoved "LOCATION")))),
            7 + seconds 1800) /\
    (forall usn', usn' <> getField peerMoved "USN" ->
                  usnToURL data' !! usn' = usnToURL heard4 !! usn') /\
    (ipVer data', sock data', groupURL data', thread data',
     lastTimeSearch data', lastTimeNotify data')
    = (ipVer heard4, sock heard4, groupURL heard4, thread heard4,
       lastTimeSearch heard4, lastTimeNotify heard4) /\
    handleNotifyRequest (H := referencePlatform) heard4 peerMoved "udp://192.168.1.7:1900" 7 =
      Ok (if bool_decide (getField peerMoved "NT" = SOAPY_REMOTE_TARGET)
          then data' else heard4) /\
    handleSearchResponse (H := referencePlatform) heard4 peerMoved "udp://192.168.1.7:1900" 7 =
      Ok (if bool_decide (getField peerMoved "ST" = SOAPY_REMOTE_TARGET)
          then data' else heard4).
Proof.
  assert (Husn : getField peerMoved "USN" <> "") by discriminate.
  assert (Hnts : getField peerMoved "NTS" <> NTS_BYEBYE) by discriminate.
  assert (Hloc : getField peerMoved "LOCATION" <> "") by discriminate.
  assert (Hdur : getCacheDuration peerMoved = Ok 1800) by (vm_compute; reflexivity).
  exact (conj Husn (conj Hnts (conj Hloc (conj Hdur
    (handleRegisterService_upsert (H := referencePlatform)
       heard4 peerMoved "udp://192.168.1.7:1900" 7 1800 Husn Hnts Hloc Hdur))))).
Defined.

Example handleRegisterService_upsert_heard4 :
  handleRegisterService (H := referencePlatform) heard4 peerMoved "udp://192.168.1.7:1900" 7
  = Ok (mkData 4 [] "udp://239.255.255.250:1900" true 0 0
          {[ peerUSN := ("tcp://192.168.1.7:4000", 7 + seconds 1800) ]}).
Proof. vm_compute. reflexivity. Qed.

(** ** The blacklist of groups *)

Section Blacklist.
Context `{Platform}.

Lemma spawnHandler_blacklisted (p : Process) (ep : SoapySSDPEndpoint)
    (bindAddr groupAddr : string) (v joinRet bindRet : Z) :
  groupAddr ∈ blacklistedGroups p ->
  spawnHandler p ep bindAddr groupAddr v joinRet bindRet = (p, ep).
Proof.
  intros Hin. unfold spawnHandler. rewrite bool_decide_eq_true_2 by exact Hin. reflexivity.
Qed.

(** The blacklist only grows. *)
Lemma spawnHandler_blacklist_grows (p : Process) (ep : SoapySSDPEndpoint)
    (bindAddr groupAddr : string) (v joinRet bindRet : Z) :
  blacklistedGroups p ⊆
  blacklistedGroups (spawnHandler p ep bindAddr groupAddr v joinRet bindRet).1.
Proof.
  unfold spawnHandler.
  destruct (bool_decide _); [reflexivity|].
  destruct (joinRet =? 0); simpl; [|set_solver].
  destruct (bindRet =? 0); reflexivity.
Qed.

Lemma attempts_blacklist_grows (l : list SpawnAttempt) (p : Process) :
  blacklistedGroups p ⊆ blacklistedGroups (attempts p l).
Proof.
  revert p. induction l as [|a l IH]; intros p; [reflexivity|].
  unfold attempts; simpl. etransitivity; [|apply IH].
  apply spawnHandler_blacklist_grows.
Qed.

(** Blacklisting a group and attempting another group commute: the attempt
    makes the same system calls and builds the same handler. *)
Lemma spawnHandler_other_group (group : string) (p : Process) (ep : SoapySSDPEndpoint)
    (bindAddr groupAddr : string) (v joinRet bindRet : Z) :
  groupAddr <> group ->
  spawnHandler (blacklisted group p) ep bindAddr groupAddr v joinRet bindRet =
  (blacklisted group (spawnHandler p ep bindAddr groupAddr v joinRet bindRet).1,
   (spawnHandler p ep bindAddr groupAddr v joinRet bindRet).2).
Proof.
  intros Hne. unfold spawnHandler, blacklisted. cbn [blacklistedGroups syscalls].
  destruct (decide (groupAddr ∈ blacklistedGroups p)) as [Hin|Hnotin].
  - rewrite (bool_decide_eq_true_2 _ Hin).
    rewrite bool_decide_eq_true_2 by (apply elem_of_union_r, Hin). reflexivity.
  - rewrite (bool_decide_eq_false_2 _ Hnotin).
    rewrite bool_decide_eq_false_2
      by (rewrite elem_of_union, elem_of_singleton; intros [?|?]; contradiction).
    destruct (joinRet =? 0); simpl.
    + destruct (bindRet =? 0); reflexivity.
    + f_equal. f_equal. rewrite !(assoc_L (∪)). f_equal. apply (comm_L (∪)).
Qed.

(** C9: when the join for a group that is not blacklisted fails, the group
    enters the blacklist and no handler is made; from then on, after any
    further attempts, an attempt for that group leaves the process and the
    endpoint as they are (no system call is made), while an attempt for
    another group goes as it would have without the blacklisting.  When the
    join succeeds and the bind fails, no handler is made and the blacklist
    stays as it was. *)
Theorem join_failure_blacklists (p : Process) (ep : SoapySSDPEndpoint)
    (bindAddr group : string) (v joinRet bindRet bindRet' : Z) :
  group ∉ blacklistedGroups p ->
  joinRet <> 0 ->
  bindRet' <> 0 ->
  let groupURL := toString (mkURL "udp" group SSDP_UDP_PORT_NUMBER) in
  let bindURL := toString (mkURL "udp" bindAddr SSDP_UDP_PORT_NUMBER) in
  let p1 := mkProcess ({[group]} ∪ blacklistedGroups p)
                      (syscalls p ++ [MulticastJoin groupURL joinRet]) in
  spawnHandler p ep bindAddr group v joinRet bindRet = (p1, ep) /\
  (forall later a,
     at_groupAddr a = group ->
     attempt (attempts p1 later) a = (attempts p1 later, at_endpoint a)) /\
  (forall q a,
     at_groupAddr a <> group ->
     attempt (blacklisted group q) a = (blacklisted group (attempt q a).1, (attempt q a).2)) /\
  spawnHandler p ep bindAddr group v 0 bindRet' =
    (mkProcess (blacklistedGroups p)
               (syscalls p ++ [MulticastJoin groupURL 0] ++ [Bind bindURL bindRet']), ep).
Proof.
  intros Hfresh Hjoin Hbind groupURL bindURL p1.
  apply Z.eqb_neq in Hjoin, Hbind.
  split; [|split; [|split]].
  - unfold spawnHandler. rewrite bool_decide_eq_false_2 by exact Hfresh.
    rewrite Hjoin. reflexivity.
  - intros later a Hgroup. unfold attempt. rewrite Hgroup.
    apply spawnHandler_blacklisted.
    apply (attempts_blacklist_grows later p1). simpl. set_solver.
  - intros q a Hother. unfold attempt. apply spawnHandler_other_group, Hother.
  - unfold spawnHandler. rewrite bool_decide_eq_false_2 by exact Hfresh.
    simpl. rewrite Hbind. simpl. rewrite <- app_assoc. reflexivity.
Qed.

End Blacklist.

(** C9 (witness): on a fresh process the join for the IPv4 group fails. *)
Lemma join_failure_blacklists_witness :
  (SSDP_MULTICAST_ADDR_IPV4 ∉ blacklistedGroups process0) /\
  (-1) <> 0 /\
  (-1) <> 0 /\
  (spawnHandler (H := referencePlatform) process0 (at_endpoint joinFails4) "0.0.0.0"
     SSDP_MULTICAST_ADDR_IPV4 4 (-1) 0
   = (mkProcess ({[SSDP_MULTICAST_ADDR_IPV4]} ∪ blacklistedGroups process0)
        (syscalls process0 ++
         [MulticastJoin
            (@toString referencePlatform (mkURL "udp" SSDP_MULTICAST_ADDR_IPV4 SSDP_UDP_PORT_NUMBER))
            (-1)]),
      at_endpoint joinFails4) /\
   (forall later a,
      at_groupAddr a = SSDP_MULTICAST_ADDR_IPV4 ->
      attempt (H := referencePlatform)
        (attempts (H := referencePlatform)
           (mkProcess ({[SSDP_MULTICAST_ADDR_IPV4]} ∪ blacklistedGroups process0)
              (syscalls process0 ++
               [MulticastJoin
                  (@toString referencePlatform
                     (mkURL "udp" SSDP_MULTICAST_ADDR_IPV4 SSDP_UDP_PORT_NUMBER))
                  (-1)]))
           later) a
      = (attempts (H := referencePlatform)
           (mkProcess ({[SSDP_MULTICAST_ADDR_IPV4]} ∪ blacklistedGroups process0)
              (syscalls process0 ++
               [MulticastJoin
                  (@toString referencePlatform
                     (mkURL "udp" SSDP_MULTICAST_ADDR_IPV4 SSDP_UDP_PORT_NUMBER))
                  (-1)]))
           later,
         at_endpoint a)) /\
   (forall q a,
      at_groupAddr a <> SSDP_MULTICAST_ADDR_IPV4 ->
      attempt (H := referencePlatform) (blacklisted SSDP_MULTICAST_ADDR_IPV4 q) a
      = (blacklisted SSDP_MULTICAST_ADDR_IPV4 (attempt (H := referencePlatform) q a).1,
         (attempt (H := referencePlatform) q a).2)) /\
   spawnHandler (H := referencePlatform) process0 (at_endpoint joinFails4) "0.0.0.0"
     SSDP_MULTICAST_ADDR_IPV4 4 0 (-1)
   = (mkProcess (blacklistedGroups process0)
        (syscalls process0 ++
         [MulticastJoin
            (@toString referencePlatform (mkURL "udp" SSDP_MULTICAST_ADDR_IPV4 SSDP_UDP_PORT_NUMBER))
            0] ++
         [Bind (@toString referencePlatform (mkURL "udp" "0.0.0.0" SSDP_UDP_PORT_NUMBER)) (-1)]),
      at_endpoint joinFails4)).
Proof.
  assert (Hfresh : SSDP_MULTICAST_ADDR_IPV4 ∉ blacklistedGroups process0)
    by (apply not_elem_of_empty).
  assert (Hret : (-1) <> 0) by discriminate.
  exact (conj Hfresh (conj Hret (conj Hret
    (join_failure_blacklists (H := referencePlatform) process0 (at_endpoint joinFails4)
       "0.0.0.0" SSDP_MULTICAST_ADDR_IPV4 4 (-1) 0 (-1) Hfresh Hret Hret)))).
Defined.

(** Scenario: the IPv4 join fails while the first endpoint is built; a second
    endpoint built in the same process makes no call for the IPv4 group and
    gets its IPv6 handler. *)
Example second_endpoint_skips_blacklisted_group :
  let p1 := (SoapySSDPEndpoint_new (H := referencePlatform) process0
               (mkSetupInput true (-1) 0 0 0)).1 in
  let r2 := SoapySSDPEndpoint_new (H := referencePlatform) p1 (mkSetupInput true 0 0 0 0) in
  bool_decide (SSDP_MULTICAST_ADDR_IPV4 ∈ blacklistedGroups p1) = true /\
  ipVer <$> handlers r2.2 = [6] /\
  drop (length (syscalls p1)) (syscalls r2.1) =
    [MulticastJoin "udp://[ff02::c]:1900" 0; Bind "udp://[::]:1900" 0;
     ThreadStart "udp://[ff02::c]:1900"].
Proof. vm_compute. repeat split; reflexivity. Qed.

(** ** The registration flag and the families over an endpoint's life *)

Section Lifetime.
Context `{Platform}.

Lemma handlers_spawnHandler (p : Process) (ep : SoapySSDPEndpoint)
    (bindAddr groupAddr : string) (v joinRet bindRet : Z) :
  let ep' := (spawnHandler p ep bindAddr groupAddr v joinRet bindRet).2 in
  serviceRegistered ep' = serviceRegistered ep /\
  (ipVer <$> handlers ep' = ipVer <$> handlers ep \/
   ipVer <$> handlers ep' = (ipVer <$> handlers ep) ++ [v]).
Proof.
  unfold spawnHandler.
  destruct (bool_decide _); [auto|].
  destruct (joinRet =? 0); simpl; [|auto].
  destruct (bindRet =? 0); simpl; [|auto].
  split; [reflexivity|]. right. rewrite fmap_app. reflexivity.
Qed.

Lemma serviceRegistered_new (p : Process) (inp : SetupInput) :
  serviceRegistered (SoapySSDPEndpoint_new p inp).2 = false.
Proof.
  unfold SoapySSDPEndpoint_new.
  destruct (spawnHandler p _ "0.0.0.0" SSDP_MULTICAST_ADDR_IPV4 4 (join4 inp) (bind4 inp))
    as [p1 ep1] eqn:H4.
  pose proof (handlers_spawnHandler p (mkEndpoint false false false false "" "" [])
                "0.0.0.0" SSDP_MULTICAST_ADDR_IPV4 4 (join4 inp) (bind4 inp)) as [Hreg _].
  rewrite H4 in Hreg. simpl in Hreg.
  destruct (isIPv6Supported inp); [|exact Hreg].
  rewrite <- Hreg. apply handlers_spawnHandler.
Qed.

(** A constructed endpoint has at most one handler per family. *)
Lemma NoDup_ipVer_new (p : Process) (inp : SetupInput) :
  NoDup (ipVer <$> handlers (SoapySSDPEndpoint_new p inp).2).
Proof.
  unfold SoapySSDPEndpoint_new.
  destruct (spawnHandler p _ "0.0.0.0" SSDP_MULTICAST_ADDR_IPV4 4 (join4 inp) (bind4 inp))
    as [p1 ep1] eqn:H4.
  pose proof (handlers_spawnHandler p (mkEndpoint false false false false "" "" [])
                "0.0.0.0" SSDP_MULTICAST_ADDR_IPV4 4 (join4 inp) (bind4 inp)) as [_ Hv4].
  rewrite H4 in Hv4. simpl in Hv4.
  assert (Hnd1 : NoDup (ipVer <$> handlers ep1) /\ 6 ∉ ipVer <$> handlers ep1).
  { destruct Hv4 as [-> | ->]; split;
      first [apply NoDup_nil_2 | apply NoDup_singleton
            | apply not_elem_of_nil
            | rewrite list_elem_of_singleton; discriminate]. }
  destruct Hnd1 as [Hnd1 H6].
  destruct (isIPv6Supported inp); [|exact Hnd1].
  destruct (handlers_spawnHandler p1 ep1 "::" SSDP_MULTICAST_ADDR_IPV6 6 (join6 inp) (bind6 inp))
    as [_ [-> | ->]]; [exact Hnd1|].
  apply NoDup_app. split; [exact Hnd1|]. split; [|apply NoDup_singleton].
  intros x Hx Hx6. apply list_elem_of_singleton in Hx6 as ->. contradiction.
Qed.

Lemma ipVer_sendNotifyHeader (ep : SoapySSDPEndpoint) (data : SoapySSDPEndpointData)
    (nts : string) (now : Z) :
  ipVer (sendNotifyHeader ep data nts now) = ipVer data.
Proof. unfold sendNotifyHeader. destruct (serviceRegistered ep); reflexivity. Qed.

Lemma ipVer_handleSearchRequest (ep : SoapySSDPEndpoint) (data : SoapySSDPEndpointData)
    (request : SoapyHTTPHeader) (recvAddr date : string) (now : Z) :
  ipVer (handleSearchRequest ep data request recvAddr date now) = ipVer data.
Proof.
  unfold handleSearchRequest.
  repeat match goal with |- context [if ?b then _ else _] => destruct b end;
    try reflexivity.
  rewrite ipVer_sendNotifyHeader. reflexivity.
Qed.

Lemma ipVer_handleRegisterService (data data' : SoapySSDPEndpointData)
    (header : SoapyHTTPHeader) (recvAddr : string) (now : Z) :
  handleRegisterService data header recvAddr now = Ok data' -> ipVer data' = ipVer data.
Proof.
  unfold handleRegisterService.
  repeat match goal with |- context [if ?b then _ else _] => destruct b end;
    try (intros [= <-]; reflexivity).
  destruct (getCacheDuration header); simpl; [intros [= <-]; reflexivity | discriminate].
Qed.

Lemma ipVer_dispatch (ep : SoapySSDPEndpoint) (data data' : SoapySSDPEndpointData)
    (header : SoapyHTTPHeader) (recvAddr date : string) (now : Z) :
  dispatch ep data header recvAddr date now = Ok data' -> ipVer data' = ipVer data.
Proof.
  unfold dispatch, handleSearchResponse, handleNotifyRequest.
  set (d1 := if String.eqb (getLine0 header) "M-SEARCH * HTTP/1.1" then _ else data).
  assert (H1 : ipVer d1 = ipVer data).
  { subst d1. destruct (String.eqb _ _); [apply ipVer_handleSearchRequest | reflexivity]. }
  clearbody d1.
  set (r2 := if String.eqb (getLine0 header) "HTTP/1.1 200 OK" then _ else Ok d1).
  assert (H2 : forall d2, r2 = Ok d2 -> ipVer d2 = ipVer data).
  { subst r2. intros d2.
    destruct (String.eqb _ _); [|intros [= <-]; exact H1].
    destruct (negb _); [intros [= <-]; exact H1|].
    intros Hr. apply ipVer_handleRegisterService in Hr. congruence. }
  clearbody r2. destruct r2 as [d2|e]; simpl; [|discriminate].
  specialize (H2 d2 eq_refl).
  destruct (String.eqb _ _); [|intros [= <-]; exact H2].
  destruct (negb _); [intros [= <-]; exact H2|].
  intros Hr. apply ipVer_handleRegisterService in Hr. congruence.
Qed.

Lemma ipVer_sweepAndTriggers (ep : SoapySSDPEndpoint) (data : SoapySSDPEndpointData)
    (timeNow tSearch tNotify : Z) :
  ipVer (sweepAndTriggers ep data timeNow tSearch tNotify) = ipVer data.
Proof.
  unfold sweepAndTriggers, sendNotifyHeader.
  repeat match goal with |- context [if ?b then _ else _] => destruct b end; reflexivity.
Qed.

Lemma ipVer_handlerLoop (ep : SoapySSDPEndpoint) (data data' : SoapySSDPEndpointData)
    (inp : LoopInput) :
  handlerLoop ep data inp = Ok data' -> ipVer data' = ipVer data.
Proof.
  unfold handlerLoop, handlerLoop_body.
  destruct (done ep).
  { intros [= <-]. simpl. apply ipVer_sendNotifyHeader. }
  destruct (received inp) as [|ret header recvAddr].
  { intros [= <-]. apply ipVer_sweepAndTriggers. }
  destruct (ret <? 0); [intros [= <-]; reflexivity|].
  destruct (dispatch _ _ _ _ _ _) as [d1|e] eqn:Hd; simpl; [|discriminate].
  intros [= <-]. rewrite ipVer_sweepAndTriggers. eapply ipVer_dispatch, Hd.
Qed.

(** A turn of a handler's thread changes that handler only. *)
Lemma runHandler_frame (ep ep' : SoapySSDPEndpoint) (i : nat) (inp : LoopInput) :
  runHandler ep i inp = Ok ep' ->
  serviceRegistered ep' = serviceRegistered ep /\
  ipVer <$> handlers ep' = ipVer <$> handlers ep.
Proof.
  unfold runHandler.
  destruct (handlers ep !! i) as [data|] eqn:Hi; [|intros [= <-]; auto].
  destruct (thread data); [|intros [= <-]; auto].
  destruct (handlerLoop ep data inp) as [data'|e] eqn:Hloop; simpl; [|discriminate].
  intros [= <-]. split; [reflexivity|]. simpl.
  apply ipVer_handlerLoop in Hloop.
  rewrite list_fmap_insert, Hloop. apply list_insert_id.
  rewrite list_lookup_fmap, Hi. reflexivity.
Qed.

Lemma step_frame (ep ep' : SoapySSDPEndpoint) (op : Op) :
  step ep op = Ok ep' ->
  serviceRegistered ep' = (serviceRegistered ep || isRegisterService op)%bool /\
  ipVer <$> handlers ep' = ipVer <$> handlers ep.
Proof.
  destruct op as [u sv|enable now|enable now|v only| |i inp]; simpl.
  - intros [= <-]. split; [symmetry; apply orb_true_r | reflexivity].
  - intros [= <-]. split; [symmetry; apply orb_false_r|]. simpl.
    apply fmap_imap_const. reflexivity.
  - intros [= <-]. split; [symmetry; apply orb_false_r|]. simpl.
    apply fmap_imap_const. intros j data. apply ipVer_sendNotifyHeader.
  - intros [= <-]. split; [symmetry; apply orb_false_r | reflexivity].
  - intros [= <-]. split; [symmetry; apply orb_false_r | reflexivity].
  - intros Hrun. apply runHandler_frame in Hrun as [-> ->].
    split; [symmetry; apply orb_false_r | reflexivity].
Qed.

Lemma exec_frame (ops : list Op) (ep ep' : SoapySSDPEndpoint) :
  exec ep ops = Ok ep' ->
  serviceRegistered ep' = (serviceRegistered ep || existsb isRegisterService ops)%bool /\
  ipVer <$> handlers ep' = ipVer <$> handlers ep.
Proof.
  revert ep. induction ops as [|op ops IH]; intros ep; simpl.
  - intros [= <-]. split; [symmetry; apply orb_false_r | reflexivity].
  - destruct (step ep op) as [ep1|e] eqn:Hstep; simpl; [|discriminate].
    intros Hexec. apply IH in Hexec as [-> ->].
    apply step_frame in Hstep as [-> ->].
    split; [symmetry; apply orb_assoc | reflexivity].
Qed.

(** The public operations always return. *)
Lemma step_public_total (ep : SoapySSDPEndpoint) (op : Op) :
  (forall i inp, op <> OpHandlerLoop i inp) -> exists ep', step ep op = Ok ep'.
Proof.
  destruct op; simpl; eauto. intros Hne. exfalso. eapply Hne. reflexivity.
Qed.

(** X17: an endpoint has at most one handler per family, from construction
    on through any run of operations. *)
Lemma NoDup_ipVer_exec (p : Process) (inp : SetupInput) (ops : list Op)
    (ep' : SoapySSDPEndpoint) :
  exec (SoapySSDPEndpoint_new p inp).2 ops = Ok ep' ->
  NoDup (ipVer <$> handlers ep').
Proof.
  intros Hexec. apply exec_frame in Hexec as [_ ->]. apply NoDup_ipVer_new.
Qed.

End Lifetime.

Example ended4_state :
  serviceRegistered ended4 = true /\ done ended4 = true /\
  thread <$> handlers ended4 = [false] /\
  (fun data => (fun sent : Datagram => getField sent.2 "NTS") <$> sock data)
    <$> handlers ended4
    = [[""; NTS_ALIVE; NTS_BYEBYE]].
Proof. vm_compute. repeat split; reflexivity. Qed.

(** * Further properties *)

(** ** Parsing of the cache duration *)

Lemma int_of_ulong_range (z : Z) : - 2 ^ 31 <= int_of_ulong z < 2 ^ 31.
Proof.
  unfold int_of_ulong.
  pose proof (Z.mod_pos_bound z (2 ^ 32) ltac:(lia)) as Hmod.
  destruct (Z.ltb_spec (z mod 2 ^ 32) (2 ^ 31)); lia.
Qed.

(** X2: whenever [getCacheDuration] returns, the duration is a value of
    [int]: between -2^31 and 2^31 - 1. *)
Theorem getCacheDuration_range (header : SoapyHTTPHeader) (d : Z) :
  getCacheDuration header = Ok d -> - 2 ^ 31 <= d < 2 ^ 31.
Proof.
  unfold getCacheDuration.
  assert (Hdef : - 2 ^ 31 <= CACHE_DURATION_SECONDS < 2 ^ 31) by (unfold CACHE_DURATION_SECONDS; lia).
  destruct (String.eqb _ _); [intros [= <-]; exact Hdef|].
  destruct (str_find "max-age" _); [|intros [= <-]; exact Hdef].
  destruct (str_find "=" _); [|intros [= <-]; exact Hdef].
  destruct (_ <? _)%nat; [intros [= <-]; exact Hdef|].
  destruct (skip_isspace_at _ _); simpl; [|discriminate].
  intros [= <-].
  destruct (stoul _); simpl; [apply int_of_ulong_range | exact Hdef].
Qed.

Lemma getCacheDuration_range_witness :
  getCacheDuration (peerNotify peerUSN "tcp://h:1" "max-age=4294967295") = Ok (-1) /\
  - 2 ^ 31 <= -1 < 2 ^ 31.
Proof.
  assert (Hd : getCacheDuration (peerNotify peerUSN "tcp://h:1" "max-age=4294967295") = Ok (-1))
    by (vm_compute; reflexivity).
  exact (conj Hd (getCacheDuration_range _ (-1) Hd)).
Defined.

Lemma digit_cases (d : Z) :
  0 <= d <= 9 ->
  d = 0 \/ d = 1 \/ d = 2 \/ d = 3 \/ d = 4 \/ d = 5 \/ d = 6 \/ d = 7 \/ d = 8 \/ d = 9.
Proof. lia. Qed.

Lemma digit_of_digit_char (d : Z) : 0 <= d <= 9 -> digit_of (digit_char d) = Some d.
Proof.
  intros Hd. apply digit_cases in Hd.
  repeat (destruct Hd as [->|Hd]; [reflexivity|]). subst d. reflexivity.
Qed.

Lemma read_digits_no_digit (s : string) (acc : Z) (seen over : bool) :
  no_leading_digit s -> read_digits s acc seen over = (acc, seen, over).
Proof. destruct s as [|c s]; simpl; [reflexivity|]. intros ->. reflexivity. Qed.

(** Reading a numeral: the value read, and the overflow flag, which by then
    says whether the value has left the range of [unsigned long]. *)
Lemma read_digits_decimal (ds : list Z) (tail : string) (acc : Z) (seen over : bool) :
  Forall (fun d => 0 <= d <= 9) ds ->
  no_leading_digit tail ->
  0 <= acc ->
  over = (ULONG_MAX <? acc) ->
  read_digits (decimal ds +:+ tail) acc seen over =
  (foldl (fun acc d => acc * 10 + d) acc ds,
   (seen || negb (bool_decide (ds = [])))%bool,
   ULONG_MAX <? foldl (fun acc d => acc * 10 + d) acc ds).
Proof.
  intros Hds Htail. revert acc seen over.
  induction Hds as [|d ds Hd Hds IH]; intros acc seen over Hacc Hover.
  - simpl. rewrite read_digits_no_digit by exact Htail.
    rewrite orb_false_r, Hover. reflexivity.
  - change (decimal (d :: ds) +:+ tail) with (String (digit_char d) (decimal ds +:+ tail)).
    cbn [read_digits foldl].
    rewrite digit_of_digit_char by exact Hd.
    rewrite IH; [|lia|].
    + rewrite (bool_decide_eq_false_2 (d :: ds = [])) by discriminate.
      simpl. rewrite orb_true_r. reflexivity.
    + rewrite Hover.
      destruct (Z.ltb_spec ULONG_MAX acc), (Z.ltb_spec ULONG_MAX (acc * 10 + d));
        simpl; try reflexivity; lia.
Qed.

Ltac stoul_first_digit ds tail Hread :=
  match goal with
  | |- context [digit_char ?d] =>
      let c := eval vm_compute in (digit_char d) in
      change (digit_char d) with c in *;
      replace (skip_spaces (String c (decimal ds +:+ tail)))
        with (String c (decimal ds +:+ tail)) by reflexivity;
      cbv beta iota zeta; rewrite Hread; simpl;
      destruct (ULONG_MAX <? _); reflexivity
  end.

Lemma stoul_decimal (ds : list Z) (tail : string) :
  ds <> [] ->
  Forall (fun d => 0 <= d <= 9) ds ->
  no_leading_digit tail ->
  stoul (decimal ds +:+ tail) =
  if ULONG_MAX <? decimal_value ds then Throw out_of_range else Ok (decimal_value ds).
Proof.
  intros Hne Hds Htail. destruct ds as [|d ds]; [congruence|].
  pose proof (read_digits_decimal (d :: ds) tail 0 false false Hds Htail
                ltac:(lia) eq_refl) as Hread.
  rewrite (bool_decide_eq_false_2 (d :: ds = [])) in Hread by discriminate.
  fold (decimal_value (d :: ds)) in Hread.
  apply Forall_cons in Hds as [Hd _]. apply digit_cases in Hd.
  unfold stoul.
  change (decimal (d :: ds) +:+ tail) with (String (digit_char d) (decimal ds +:+ tail)) in *.
  repeat (destruct Hd as [->|Hd]; [stoul_first_digit ds tail Hread|]).
  subst d. stoul_first_digit ds tail Hread.
Qed.

Lemma substring_all (s : string) : String.substring 0 (String.length s) s = s.
Proof. induction s as [|c s IH]; simpl; [reflexivity | now rewrite IH]. Qed.

Lemma prefix_empty (s : string) : String.prefix "" s = true.
Proof. destruct s; reflexivity. Qed.

Lemma isspace_digit_char (d : Z) : 0 <= d <= 9 -> isspace (digit_char d) = false.
Proof.
  intros Hd. apply digit_cases in Hd.
  repeat (destruct Hd as [->|Hd]; [reflexivity|]). subst d. reflexivity.
Qed.

(** X3: a CACHE-CONTROL field that is max-age= followed at once by a decimal
    numeral, and then by the end of the field or a character that is no
    digit, gives the numeral's value reduced to [int] when the value fits
    [unsigned long], and the default of 120 seconds when it does not. *)
Theorem getCacheDuration_decimal (header : SoapyHTTPHeader) (ds : list Z) (tail : string) :
  getField header "CACHE-CONTROL" = "max-age=" +:+ decimal ds +:+ tail ->
  ds <> [] ->
  Forall (fun d => 0 <= d <= 9) ds ->
  no_leading_digit tail ->
  getCacheDuration header =
    Ok (if decimal_value ds <=? ULONG_MAX then int_of_ulong (decimal_value ds)
        else CACHE_DURATION_SECONDS).
Proof.
  intros Hcc Hne Hds Htail. unfold getCacheDuration. rewrite Hcc.
  pose proof (stoul_decimal ds tail Hne Hds Htail) as Hstoul.
  assert (Hskip : skip_isspace_at (decimal ds +:+ tail) (7 + 1) = Ok (7 + 1)%nat).
  { destruct ds as [|d ds]; [congruence|]. apply Forall_cons in Hds as [Hd _].
    change (decimal (d :: ds) +:+ tail) with (String (digit_char d) (decimal ds +:+ tail)).
    cbn [skip_isspace_at]. rewrite isspace_digit_char by exact Hd. reflexivity. }
  set (rest := decimal ds +:+ tail) in *.
  assert (Hfind1 : str_find "max-age" ("max-age=" +:+ rest) = Some 0%nat) by reflexivity.
  assert (Hfind2 : str_find "=" ("max-age=" +:+ rest) = Some 7%nat).
  { unfold str_find. simpl. rewrite prefix_empty. reflexivity. }
  assert (Hsub : substr (7 + 1) ("max-age=" +:+ rest) = rest).
  { unfold substr. simpl. rewrite Nat.sub_0_r. apply substring_all. }
  rewrite Hfind1, Hfind2.
  change (String.eqb ("max-age=" +:+ rest) "") with false.
  change (7 <? 0)%nat with false. cbv iota.
  rewrite Hsub, Hskip. unfold rbind at 1. rewrite Hsub, Hstoul.
  destruct (Z.ltb_spec ULONG_MAX (decimal_value ds)), (Z.leb_spec (decimal_value ds) ULONG_MAX);
    try lia; reflexivity.
Qed.

(** X3 (witness): max-age=1800 followed by a comma. *)
Lemma getCacheDuration_decimal_witness :
  getField (peerNotify peerUSN "tcp://h:1" "max-age=1800, public") "CACHE-CONTROL"
    = "max-age=" +:+ decimal [1; 8; 0; 0] +:+ ", public" /\
  [1; 8; 0; 0] <> [] /\
  Forall (fun d => 0 <= d <= 9) [1; 8; 0; 0] /\
  no_leading_digit ", public" /\
  getCacheDuration (peerNotify peerUSN "tcp://h:1" "max-age=1800, public") = Ok 1800.
Proof.
  assert (Hcc : getField (peerNotify peerUSN "tcp://h:1" "max-age=1800, public") "CACHE-CONTROL"
                = "max-age=" +:+ decimal [1; 8; 0; 0] +:+ ", public") by reflexivity.
  assert (Hne : [1; 8; 0; 0] <> []) by discriminate.
  assert (Hds : Forall (fun d => 0 <= d <= 9) [1; 8; 0; 0]) by (repeat constructor; lia).
  assert (Htail : no_leading_digit ", public") by reflexivity.
  exact (conj Hcc (conj Hne (conj Hds (conj Htail
    (getCacheDuration_decimal _ [1; 8; 0; 0] ", public" Hcc Hne Hds Htail))))).
Defined.

(** ** Sweeps of the cache *)

Lemma removeOldEntries_lookup (timeNow : Z) (m : gmap string (string * Z)) (usn : string) :
  removeOldEntries timeNow m !! usn =
  match m !! usn with
  | Some entry => if timeNow <? entry.2 then Some entry else None
  | None => None
  end.
Proof.
  unfold removeOldEntries.
  rewrite (map_fold_erase_lookup (fun entry : string * Z => timeNow <? entry.2)).
  destruct (m !! usn) as [entry|] eqn:Hm; [|reflexivity].
  destruct (timeNow <? entry.2); reflexivity.
Qed.

(** X4: a sweep only removes entries, a sweep at the same or an earlier time
    after a sweep removes nothing more, and two sweeps in a row amount to
    one sweep at the later of the two times. *)
Theorem removeOldEntries_compose (t1 t2 : Z) (m : gmap string (string * Z)) :
  removeOldEntries t1 m ⊆ m /\
  removeOldEntries t2 (removeOldEntries t1 m) = removeOldEntries (Z.max t1 t2) m /\
  removeOldEntries (Z.min t1 t2) (removeOldEntries (Z.max t1 t2) m)
    = removeOldEntries (Z.max t1 t2) m.
Proof.
  split; [|split].
  - apply map_subseteq_spec. intros usn entry. rewrite removeOldEntries_lookup.
    destruct (m !! usn) as [e|]; [|discriminate].
    destruct (t1 <? e.2); [auto | discriminate].
  - apply map_eq. intros usn. rewrite !removeOldEntries_lookup.
    destruct (m !! usn) as [e|]; [|reflexivity].
    destruct (Z.ltb_spec t1 e.2), (Z.ltb_spec (Z.max t1 t2) e.2);
      try (destruct (Z.ltb_spec t2 e.2)); try reflexivity; lia.
  - apply map_eq. intros usn. rewrite !removeOldEntries_lookup.
    destruct (m !! usn) as [e|]; [|reflexivity].
    destruct (Z.ltb_spec (Z.max t1 t2) e.2); [|reflexivity].
    destruct (Z.ltb_spec (Z.min t1 t2) e.2); [reflexivity | lia].
Qed.

Section RegisterThenSweep.
Context `{Platform}.

(** X5: an entry recorded at clock reading [now] with cache duration
    [duration] is still in the handler's cache after the sweep of a turn at
    [timeNow] exactly when [timeNow] is before [now] plus [duration]
    seconds; a duration of zero or less does not survive a sweep made at or
    after the recording. *)
Theorem upsert_then_sweep (ep : SoapySSDPEndpoint) (data data' : SoapySSDPEndpointData)
    (header : SoapyHTTPHeader) (recvAddr : string)
    (now duration timeNow tSearch tNotify : Z) :
  getField header "USN" <> "" ->
  getField header "NTS" <> NTS_BYEBYE ->
  getField header "LOCATION" <> "" ->
  getCacheDuration header = Ok duration ->
  handleRegisterService data header recvAddr now = Ok data' ->
  usnToURL (sweepAndTriggers ep data' timeNow tSearch tNotify) !! getField header "USN" =
    (if timeNow <? now + seconds duration
     then Some (toString (serverURL recvAddr (getField header "LOCATION")),
                now + seconds duration)
     else None) /\
  (duration <= 0 -> now <= timeNow ->
   usnToURL (sweepAndTriggers ep data' timeNow tSearch tNotify) !! getField header "USN" = None).
Proof.
  intros Husn Hnts Hloc Hdur. unfold handleRegisterService.
  apply String.eqb_neq in Husn, Hnts, Hloc. rewrite Husn, Hnts, Hloc, Hdur.
  intros [= <-].
  assert (Hsweep : usnToURL (sweepAndTriggers ep
              (set_usnToURL
                 (<[getField header "USN" :=
                      (toString (serverURL recvAddr (getField header "LOCATION")),
                       now + seconds duration)]> (usnToURL data)) data)
              timeNow tSearch tNotify) !! getField header "USN" =
            (if timeNow <? now + seconds duration
             then Some (toString (serverURL recvAddr (getField header "LOCATION")),
                        now + seconds duration)
             else None)).
  { rewrite usnToURL_sweepAndTriggers, removeOldEntries_lookup. simpl.
    rewrite lookup_insert_eq. reflexivity. }
  split; [exact Hsweep|].
  intros Hd Hnow. rewrite Hsweep.
  destruct (Z.ltb_spec timeNow (now + seconds duration)) as [Hlt|_]; [|reflexivity].
  unfold seconds, ticks_per_second in Hlt. lia.
Qed.

End RegisterThenSweep.

(** X5 (witness): peer 1 announces again with max-age=1800 at clock reading
    7; the turn sweeps at 8. *)
Lemma upsert_then_sweep_witness :
  getField peerMoved "USN" <> "" /\
  getCacheDuration peerMoved = Ok 1800 /\
  usnToURL (sweepAndTriggers (H := referencePlatform) endpoint4
              (set_usnToURL {[ peerUSN := ("tcp://192.168.1.7:4000", 7 + seconds 1800) ]} heard4)
              8 8 8) !! peerUSN
  = Some ("tcp://192.168.1.7:4000", 7 + seconds 1800).
Proof.
  assert (Husn : getField peerMoved "USN" <> "") by discriminate.
  assert (Hnts : getField peerMoved "NTS" <> NTS_BYEBYE) by discriminate.
  assert (Hloc : getField peerMoved "LOCATION" <> "") by discriminate.
  assert (Hdur : getCacheDuration peerMoved = Ok 1800) by (vm_compute; reflexivity).
  assert (Hreg : handleRegisterService (H := referencePlatform) heard4 peerMoved
                   "udp://192.168.1.7:1900" 7
                 = Ok (set_usnToURL
                         {[ peerUSN := ("tcp://192.168.1.7:4000", 7 + seconds 1800) ]} heard4))
    by (vm_compute; reflexivity).
  split; [exact Husn|]. split; [exact Hdur|].
  exact (proj1 (upsert_then_sweep (H := referencePlatform) endpoint4 heard4 _ peerMoved
                  "udp://192.168.1.7:1900" 7 1800 8 8 8 Husn Hnts Hloc Hdur Hreg)).
Defined.

(** ** Messages of one node handled by another *)

Section BetweenNodes.
Context `{Platform}.

Lemma ownUSN_nonempty (ep : SoapySSDPEndpoint) : ownUSN ep <> "".
Proof. unfold ownUSN. discriminate. Qed.

(** X6: node A's alive announcement and node A's search response, handled
    by a handler of node B as coming from [recvAddr] at clock reading
    [now], both pass B's filter and record for A's USN the locator made of
    the node of [recvAddr] and the service of A's locator, expiring 120
    seconds after [now], provided A's locator is not the empty string. *)
Theorem announcement_registers_sender (epA : SoapySSDPEndpoint)
    (dataA dataB : SoapySSDPEndpointData) (recvAddr date : string) (now : Z) :
  ownLocation epA <> "" ->
  let entry := (toString (serverURL recvAddr (ownLocation epA)),
                now + seconds CACHE_DURATION_SECONDS) in
  handleNotifyRequest dataB (notifyHeader epA dataA NTS_ALIVE) recvAddr now
    = Ok (set_usnToURL (<[ownUSN epA := entry]> (usnToURL dataB)) dataB) /\
  handleSearchResponse dataB (searchResponse epA date) recvAddr now
    = Ok (set_usnToURL (<[ownUSN epA := entry]> (usnToURL dataB)) dataB).
Proof.
  intros Hloc entry.
  pose proof (ownUSN_nonempty epA) as Husn.
  apply String.eqb_neq in Hloc, Husn.
  split.
  - unfold handleNotifyRequest, handleRegisterService, getCacheDuration.
    change (getField (notifyHeader epA dataA NTS_ALIVE) "NT") with SOAPY_REMOTE_TARGET.
    change (getField (notifyHeader epA dataA NTS_ALIVE) "USN") with (ownUSN epA).
    change (getField (notifyHeader epA dataA NTS_ALIVE) "NTS") with NTS_ALIVE.
    change (getField (notifyHeader epA dataA NTS_ALIVE) "LOCATION") with (ownLocation epA).
    change (getField (notifyHeader epA dataA NTS_ALIVE) "CACHE-CONTROL") with "max-age=120".
    rewrite Husn, Hloc. reflexivity.
  - unfold handleSearchResponse, handleRegisterService, getCacheDuration.
    change (getField (searchResponse epA date) "ST") with SOAPY_REMOTE_TARGET.
    change (getField (searchResponse epA date) "USN") with (ownUSN epA).
    change (getField (searchResponse epA date) "NTS") with "".
    change (getField (searchResponse epA date) "LOCATION") with (ownLocation epA).
    change (getField (searchResponse epA date) "CACHE-CONTROL") with "max-age=120".
    rewrite Husn, Hloc. reflexivity.
Qed.

(** X7: node A's departure announcement, handled by a handler of node B,
    erases A's USN from that handler's cache and changes nothing else; after
    A's alive announcement followed by A's departure announcement the cache
    is the one before with A's USN erased. *)
Theorem departure_unregisters_sender (epA : SoapySSDPEndpoint)
    (dataA dataB : SoapySSDPEndpointData) (recvAddr recvAddr' : string) (now now' : Z) :
  handleNotifyRequest dataB (notifyHeader epA dataA NTS_BYEBYE) recvAddr now
    = Ok (set_usnToURL (delete (ownUSN epA) (usnToURL dataB)) dataB) /\
  (let* dataB' := handleNotifyRequest dataB (notifyHeader epA dataA NTS_ALIVE) recvAddr now in
   handleNotifyRequest dataB' (notifyHeader epA dataA NTS_BYEBYE) recvAddr' now')
    = Ok (set_usnToURL (delete (ownUSN epA) (usnToURL dataB)) dataB).
Proof.
  pose proof (ownUSN_nonempty epA) as Husn. apply String.eqb_neq in Husn.
  assert (Hbye : forall d addr t,
            handleNotifyRequest d (notifyHeader epA dataA NTS_BYEBYE) addr t
            = Ok (set_usnToURL (delete (ownUSN epA) (usnToURL d)) d)).
  { intros d addr t. unfold handleNotifyRequest, handleRegisterService.
    change (getField (notifyHeader epA dataA NTS_BYEBYE) "NT") with SOAPY_REMOTE_TARGET.
    change (getField (notifyHeader epA dataA NTS_BYEBYE) "USN") with (ownUSN epA).
    change (getField (notifyHeader epA dataA NTS_BYEBYE) "NTS") with NTS_BYEBYE.
    rewrite Husn. reflexivity. }
  split; [apply Hbye|].
  unfold handleNotifyRequest at 1. unfold handleRegisterService, getCacheDuration.
  change (getField (notifyHeader epA dataA NTS_ALIVE) "NT") with SOAPY_REMOTE_TARGET.
  change (getField (notifyHeader epA dataA NTS_ALIVE) "USN") with (ownUSN epA).
  change (getField (notifyHeader epA dataA NTS_ALIVE) "NTS") with NTS_ALIVE.
  change (getField (notifyHeader epA dataA NTS_ALIVE) "LOCATION") with (ownLocation epA).
  change (getField (notifyHeader epA dataA NTS_ALIVE) "CACHE-CONTROL") with "max-age=120".
  rewrite Husn.
  destruct (String.eqb (ownLocation epA) ""); simpl; rewrite Hbye; [reflexivity|].
  unfold set_usnToURL; simpl. rewrite delete_insert_eq. reflexivity.
Qed.

(** X8: the search message that any handler sends is answered by every node
    with a registered service: handled as a received datagram it passes the
    MAN and ST filters, so that the receiving handler sends the response to
    the sender's address and then an alive announcement to its own group,
    and leaves its cache as it is; a node without registered service sends
    nothing. *)
Theorem search_message_is_answered (ep : SoapySSDPEndpoint)
    (data sender : SoapySSDPEndpointData) (recvAddr date : string) (now : Z) :
  dispatch ep data (searchHeader sender) recvAddr date now =
    Ok (if serviceRegistered ep
        then mkData (ipVer data)
               (sock data ++ [(recvAddr, searchResponse ep date);
                              (groupURL data, notifyHeader ep data NTS_ALIVE)])
               (groupURL data) (thread data) (lastTimeSearch data) now (usnToURL data)
        else data).
Proof.
  unfold dispatch, handleSearchRequest, sendNotifyHeader.
  change (getLine0 (searchHeader sender)) with "M-SEARCH * HTTP/1.1".
  change (getField (searchHeader sender) "MAN") with MAN_DISCOVER.
  change (getField (searchHeader sender) "ST") with SOAPY_REMOTE_TARGET.
  destruct (serviceRegistered ep); simpl; [|reflexivity].
  unfold set_lastTimeNotify, set_sock, sendHeader; simpl.
  rewrite <- app_assoc. reflexivity.
Qed.

End BetweenNodes.

(** X6 (witness): node-1 registered with service 55132 on the reference
    platform. *)
Lemma announcement_registers_sender_witness :
  ownLocation (H := referencePlatform) (registerService "node-1" "55132" endpoint4) <> "" /\
  handleNotifyRequest (H := referencePlatform) heard4
    (notifyHeader (H := referencePlatform) (registerService "node-1" "55132" endpoint4)
       heard4 NTS_ALIVE)
    "udp://192.168.1.9:1900" 100
  = Ok (mkData 4 [] "udp://239.255.255.250:1900" true 0 0
          (<["uuid:node-1::" +:+ SOAPY_REMOTE_TARGET :=
               ("tcp://192.168.1.9:55132", 100 + seconds 120)]>
             {[ peerUSN := ("tcp://192.168.1.7:55132", seconds 30) ]})).
Proof.
  assert (Hloc : ownLocation (H := referencePlatform)
                   (registerService "node-1" "55132" endpoint4) <> "") by discriminate.
  exact (conj Hloc
    (proj1 (announcement_registers_sender (H := referencePlatform)
              (registerService "node-1" "55132" endpoint4) heard4 heard4
              "udp://192.168.1.9:1900" "" 100 Hloc))).
Defined.

(** ** What a received datagram can do *)

Section Dispatch.
Context `{Platform}.

Lemma handleRegisterService_sock (data data' : SoapySSDPEndpointData)
    (header : SoapyHTTPHeader) (recvAddr : string) (now : Z) :
  handleRegisterService data header recvAddr now = Ok data' ->
  sock data' = sock data /\ lastTimeNotify data' = lastTimeNotify data /\
  groupURL data' = groupURL data.
Proof.
  unfold handleRegisterService.
  repeat match goal with |- context [if ?b then _ else _] => destruct b end;
    try (intros [= <-]; auto).
  destruct (getCacheDuration header); simpl; [intros [= <-]; auto | discriminate].
Qed.

Lemma usnToURL_handleSearchRequest (ep : SoapySSDPEndpoint) (data : SoapySSDPEndpointData)
    (request : SoapyHTTPHeader) (recvAddr date : string) (now : Z) :
  usnToURL (handleSearchRequest ep data request recvAddr date now) = usnToURL data.
Proof.
  unfold handleSearchRequest, sendNotifyHeader.
  repeat match goal with |- context [if ?b then _ else _] => destruct b end; reflexivity.
Qed.

(** X9: a received datagram never both sends and changes the cache: a search
    request leaves the cache as it is; a search response or a notification
    sends nothing; a datagram with any other start line leaves the handler
    as it is. *)
Theorem dispatch_frame (ep : SoapySSDPEndpoint) (data data' : SoapySSDPEndpointData)
    (header : SoapyHTTPHeader) (recvAddr date : string) (now : Z) :
  dispatch ep data header recvAddr date now = Ok data' ->
  (if String.eqb (getLine0 header) "M-SEARCH * HTTP/1.1"
   then usnToURL data' = usnToURL data
   else sock data' = sock data /\ lastTimeNotify data' = lastTimeNotify data) /\
  (if (String.eqb (getLine0 header) "M-SEARCH * HTTP/1.1"
       || String.eqb (getLine0 header) "HTTP/1.1 200 OK"
       || String.eqb (getLine0 header) "NOTIFY * HTTP/1.1")%bool
   then True else data' = data).
Proof.
  unfold dispatch, handleSearchResponse, handleNotifyRequest.
  destruct (String.eqb_spec (getLine0 header) "M-SEARCH * HTTP/1.1") as [Hline|_].
  { rewrite Hline. simpl. intros [= <-].
    split; [apply usnToURL_handleSearchRequest | exact I]. }
  destruct (String.eqb_spec (getLine0 header) "HTTP/1.1 200 OK") as [Hline|_].
  { rewrite Hline. simpl.
    destruct (negb _); simpl; [intros [= <-]; auto|].
    destruct (handleRegisterService _ _ _ _) as [d|e] eqn:Hreg; simpl; [|discriminate].
    intros [= <-]. apply handleRegisterService_sock in Hreg as (? & ? & _). auto. }
  simpl.
  destruct (String.eqb (getLine0 header) "NOTIFY * HTTP/1.1"); [|intros [= <-]; auto].
  destruct (negb _); [intros [= <-]; auto|].
  intros Hreg. apply handleRegisterService_sock in Hreg as (? & ? & _). auto.
Qed.

Lemma sendsOnlyTo_refl (dests : list string) (data : SoapySSDPEndpointData) :
  sendsOnlyTo dests data data.
Proof. split; [reflexivity|]. exists []. rewrite app_nil_r. auto. Qed.

Lemma sendsOnlyTo_trans (dests : list string) (d1 d2 d3 : SoapySSDPEndpointData) :
  sendsOnlyTo dests d1 d2 -> sendsOnlyTo dests d2 d3 -> sendsOnlyTo dests d1 d3.
Proof.
  intros [Hg1 (n1 & Hs1 & Hf1)] [Hg2 (n2 & Hs2 & Hf2)].
  split; [congruence|]. exists (n1 ++ n2).
  split; [rewrite Hs2, Hs1, app_assoc; reflexivity | apply Forall_app; auto].
Qed.

Lemma sendsOnlyTo_step (dests : list string) (data data' : SoapySSDPEndpointData)
    (new : list Datagram) :
  groupURL data' = groupURL data ->
  sock data' = sock data ++ new ->
  Forall (fun sent : Datagram => sent.1 ∈ dests) new ->
  sendsOnlyTo dests data data'.
Proof. intros Hg Hs Hf. split; [exact Hg|]. exists new. auto. Qed.

Lemma sendsOnlyTo_sendNotifyHeader (dests : list string) (ep : SoapySSDPEndpoint)
    (data : SoapySSDPEndpointData) (nts : string) (now : Z) :
  groupURL data ∈ dests -> sendsOnlyTo dests data (sendNotifyHeader ep data nts now).
Proof.
  intros Hin. unfold sendNotifyHeader.
  destruct (serviceRegistered ep); simpl; [|apply sendsOnlyTo_refl].
  eapply sendsOnlyTo_step; [reflexivity | reflexivity|].
  apply Forall_singleton. exact Hin.
Qed.

Lemma sendsOnlyTo_sweepAndTriggers (dests : list string) (ep : SoapySSDPEndpoint)
    (data : SoapySSDPEndpointData) (timeNow tSearch tNotify : Z) :
  groupURL data ∈ dests ->
  sendsOnlyTo dests data (sweepAndTriggers ep data timeNow tSearch tNotify).
Proof.
  intros Hin. unfold sweepAndTriggers.
  set (d1 := set_usnToURL _ data).
  assert (H1 : sendsOnlyTo dests data d1) by (eapply (sendsOnlyTo_step _ _ _ []);
    [reflexivity | symmetry; apply app_nil_r | constructor]).
  set (d2 := if (periodicSearchEnabled ep && _)%bool then _ else d1).
  assert (H2 : sendsOnlyTo dests d1 d2).
  { subst d2. destruct (_ && _)%bool; [|apply sendsOnlyTo_refl].
    eapply sendsOnlyTo_step; [reflexivity | reflexivity|].
    apply Forall_singleton. exact Hin. }
  assert (Hg2 : groupURL d2 = groupURL data) by (rewrite (proj1 H2); reflexivity).
  clearbody d2.
  eapply sendsOnlyTo_trans; [exact H1|]. eapply sendsOnlyTo_trans; [exact H2|].
  destruct (_ && _)%bool; [|apply sendsOnlyTo_refl].
  apply sendsOnlyTo_sendNotifyHeader. rewrite Hg2. exact Hin.
Qed.

Lemma sendsOnlyTo_dispatch (ep : SoapySSDPEndpoint) (data data' : SoapySSDPEndpointData)
    (header : SoapyHTTPHeader) (recvAddr date : string) (now : Z) :
  dispatch ep data header recvAddr date now = Ok data' ->
  sendsOnlyTo [groupURL data; recvAddr] data data'.
Proof.
  assert (Hreg : forall d d', handleRegisterService d header recvAddr now = Ok d' ->
                              sendsOnlyTo [groupURL data; recvAddr] d d').
  { intros d d' Hr. apply handleRegisterService_sock in Hr as (Hs & _ & Hg).
    eapply (sendsOnlyTo_step _ _ _ []); [exact Hg | rewrite Hs, app_nil_r; reflexivity | constructor]. }
  unfold dispatch, handleSearchResponse, handleNotifyRequest.
  set (d1 := if String.eqb (getLine0 header) "M-SEARCH * HTTP/1.1" then _ else data).
  assert (H1 : sendsOnlyTo [groupURL data; recvAddr] data d1).
  { subst d1. destruct (String.eqb _ _); [|apply sendsOnlyTo_refl].
    unfold handleSearchRequest.
    repeat match goal with |- context [if negb ?b then _ else _] => destruct b; simpl end;
      try apply sendsOnlyTo_refl.
    eapply sendsOnlyTo_trans;
      [|apply sendsOnlyTo_sendNotifyHeader; simpl; apply list_elem_of_here].
    eapply sendsOnlyTo_step; [reflexivity | reflexivity|].
    apply Forall_singleton. simpl. apply list_elem_of_further, list_elem_of_here. }
  clearbody d1.
  set (r2 := if String.eqb (getLine0 header) "HTTP/1.1 200 OK" then _ else Ok d1).
  assert (H2 : forall d2, r2 = Ok d2 -> sendsOnlyTo [groupURL data; recvAddr] d1 d2).
  { subst r2. intros d2.
    destruct (String.eqb _ _); [|intros [= <-]; apply sendsOnlyTo_refl].
    destruct (negb _); [intros [= <-]; apply sendsOnlyTo_refl | apply Hreg]. }
  clearbody r2. destruct r2 as [d2|e]; simpl; [|discriminate].
  specialize (H2 d2 eq_refl). intros H3.
  eapply sendsOnlyTo_trans; [exact H1|]. eapply sendsOnlyTo_trans; [exact H2|].
  destruct (String.eqb _ _); [|injection H3 as <-; apply sendsOnlyTo_refl].
  destruct (negb _); [injection H3 as <-; apply sendsOnlyTo_refl | apply Hreg, H3].
Qed.

(** X10: whatever a turn of a handler's loop sends is addressed to the
    handler's own group or to the source address of the datagram received
    in that turn; the turn keeps what was sent before and the handler's
    group. *)
Theorem handlerLoop_destinations (ep : SoapySSDPEndpoint)
    (data data' : SoapySSDPEndpointData) (inp : LoopInput) :
  handlerLoop ep data inp = Ok data' ->
  sendsOnlyTo
    (groupURL data ::
     match received inp with
     | RecvFrom _ _ recvAddr => [recvAddr]
     | NoDatagram => []
     end) data data'.
Proof.
  unfold handlerLoop, handlerLoop_body.
  destruct (done ep).
  { intros [= <-].
    eapply sendsOnlyTo_trans;
      [apply sendsOnlyTo_sendNotifyHeader, list_elem_of_here|].
    eapply (sendsOnlyTo_step _ _ _ []); [reflexivity | symmetry; apply app_nil_r | constructor]. }
  destruct (received inp) as [|ret header recvAddr].
  { intros [= <-]. apply sendsOnlyTo_sweepAndTriggers, list_elem_of_here. }
  destruct (ret <? 0).
  { intros [= <-].
    eapply (sendsOnlyTo_step _ _ _ []); [reflexivity | symmetry; apply app_nil_r | constructor]. }
  destruct (dispatch _ _ _ _ _ _) as [d1|e] eqn:Hd; simpl; [|discriminate].
  intros [= <-]. apply sendsOnlyTo_dispatch in Hd.
  eapply sendsOnlyTo_trans; [exact Hd|].
  apply sendsOnlyTo_sweepAndTriggers. rewrite (proj1 Hd). apply list_elem_of_here.
Qed.

End Dispatch.

(** X9 (witness): the announcement [peerMoved] reaches the handler
    [heard4]. *)
Lemma dispatch_frame_witness :
  exists data',
    dispatch (H := referencePlatform) endpoint4 heard4 peerMoved "udp://192.168.1.7:1900" "" 7
      = Ok data' /\
    sock data' = sock heard4 /\ lastTimeNotify data' = lastTimeNotify heard4.
Proof.
  eexists.
  refine ((fun Hd => conj Hd
             (proj1 (dispatch_frame (H := referencePlatform) endpoint4 heard4 _ peerMoved
                       "udp://192.168.1.7:1900" "" 7 Hd))) _).
  vm_compute. reflexivity.
Defined.

(** X10 (witness): a registered node receives a search message from
    192.168.1.9. *)
Lemma handlerLoop_destinations_witness :
  exists data',
    handlerLoop (H := referencePlatform) (registerService "node-1" "55132" endpoint4) heard4
      (recvTurn (searchHeader (H := referencePlatform) heard4) "udp://192.168.1.9:1900" 5)
      = Ok data' /\
    sendsOnlyTo ["udp://239.255.255.250:1900"; "udp://192.168.1.9:1900"] heard4 data'.
Proof.
  eexists.
  refine ((fun Hd => conj Hd
             (handlerLoop_destinations (H := referencePlatform)
                (registerService "node-1" "55132" endpoint4) heard4 _
                (recvTurn (searchHeader (H := referencePlatform) heard4)
                          "udp://192.168.1.9:1900" 5) Hd)) _).
  vm_compute. reflexivity.
Defined.

(** ** The merged view, exclusive and not *)

Lemma foldl_mergeHandler_mono (v : Z) (hs : list SoapySSDPEndpointData)
    (acc1 acc2 : gmap string (string * Z)) :
  acc1 ⊆ acc2 ->
  foldl (mergeHandler v true) acc1 hs ⊆ foldl (mergeHandler v false) acc2 hs.
Proof.
  revert acc1 acc2. induction hs as [|d hs IH]; intros acc1 acc2 Hsub; simpl; [exact Hsub|].
  apply IH. rewrite !mergeHandler_union.
  destruct (ipVer d =? v).
  - apply map_subseteq_spec. intros k x.
    rewrite !lookup_union_Some_raw. intros [Hd|[Hnone Hacc]]; [auto|].
    right. split; [exact Hnone|]. eapply lookup_weaken; eassumption.
  - etransitivity; [exact Hsub|]. apply map_union_subseteq_l.
Qed.

(** X12: the exclusive view is part of the inclusive view: every USN that a
    query with [only] returns, a query without [only] returns with the same
    entry, so the exclusive list is never the longer one; and a query with
    [only] for a family of which the endpoint has no handler returns
    nothing. *)
Theorem usnPrefToURL_exclusive_inclusive (ep : SoapySSDPEndpoint) (v : Z) :
  usnPrefToURL ep v true ⊆ usnPrefToURL ep v false /\
  (length (getServerURLs ep v true) <= length (getServerURLs ep v false))%nat /\
  (if bool_decide (v ∈ ipVer <$> handlers ep) then True
   else getServerURLs ep v true = []).
Proof.
  assert (Hsub : usnPrefToURL ep v true ⊆ usnPrefToURL ep v false)
    by (apply foldl_mergeHandler_mono; reflexivity).
  split; [exact Hsub|]. split.
  - unfold getServerURLs. rewrite !length_fmap, !length_map_to_list.
    apply map_subseteq_size, Hsub.
  - destruct (decide (v ∈ ipVer <$> handlers ep)) as [Hin|Hnotin].
    + rewrite bool_decide_eq_true_2 by exact Hin. exact I.
    + rewrite bool_decide_eq_false_2 by exact Hnotin.
      unfold getServerURLs, usnPrefToURL.
      assert (Hempty : forall hs acc, v ∉ ipVer <$> hs ->
                                      foldl (mergeHandler v true) acc hs = acc).
      { induction hs as [|d hs IH]; intros acc Hv; [reflexivity|].
        rewrite fmap_cons in Hv. apply not_elem_of_cons in Hv as [Hne Hv].
        simpl. rewrite mergeHandler_union.
        destruct (Z.eqb_spec (ipVer d) v) as [Heq|_]; [congruence | apply IH, Hv]. }
      rewrite Hempty by exact Hnotin. rewrite map_to_list_empty. reflexivity.
Qed.

(** ** The end of an endpoint *)

Section Teardown.
Context `{Platform}.

(** X14: a receive error ends the handler's thread without any datagram: the
    handler sends no departure announcement then, nor when the endpoint is
    shut down afterwards; only its thread flag changes. *)
Theorem receive_error_is_silent (ep : SoapySSDPEndpoint) (i : nat)
    (data : SoapySSDPEndpointData) (ret : Z) (header : SoapyHTTPHeader)
    (recvAddr date : string) (t1 t2 t3 t4 : Z) (inp' : LoopInput) :
  handlers ep !! i = Some data ->
  thread data = true ->
  done ep = false ->
  ret < 0 ->
  exec ep [OpHandlerLoop i (mkLoopInput (RecvFrom ret header recvAddr) date t1 t2 t3 t4);
           OpShutdown;
           OpHandlerLoop i inp']
  = Ok (shutdown (set_handlers (<[i := set_thread false data]> (handlers ep)) ep)).
Proof.
  intros Hi Hthread Hdone Hret. cbn [exec step]. unfold runHandler at 1.
  rewrite Hi, Hthread. unfold handlerLoop, handlerLoop_body. rewrite Hdone.
  cbn [received]. apply Z.ltb_lt in Hret. rewrite Hret. cbn [rbind].
  unfold runHandler. cbn [handlers shutdown set_handlers].
  rewrite list_lookup_insert_eq by (eapply lookup_lt_Some; exact Hi).
  reflexivity.
Qed.

End Teardown.

(** X14 (witness): the IPv4 handler of [endpoint4], with a service
    registered, gets a receive error. *)
Lemma receive_error_is_silent_witness :
  sock <$> handlers
    (match exec (H := referencePlatform) (registerService "node-1" "55132" endpoint4)
             [OpHandlerLoop 0 (mkLoopInput (RecvFrom (-1) (newHeader "") "") "" 1 1 1 1);
              OpShutdown;
              OpHandlerLoop 0 (idleTurn 2)] with
     | Ok ep => ep
     | Throw _ => endpoint4
     end) = [[]].
Proof.
  rewrite (receive_error_is_silent (H := referencePlatform)
             (registerService "node-1" "55132" endpoint4) 0
             (mkData 4 [] "udp://239.255.255.250:1900" true 0 0 ∅)
             (-1) (newHeader "") "" "" 1 1 1 1 (idleTurn 2)
             eq_refl eq_refl eq_refl eq_refl).
  reflexivity.
Defined.

(** ** Construction *)

Section Construction.
Context `{Platform}.

Lemma IPV6_group_blacklisted_after_IPV4 (bl : gset string) :
  bool_decide (SSDP_MULTICAST_ADDR_IPV6 ∈ {[SSDP_MULTICAST_ADDR_IPV4]} ∪ bl)
  = bool_decide (SSDP_MULTICAST_ADDR_IPV6 ∈ bl).
Proof.
  apply bool_decide_ext. rewrite elem_of_union, elem_of_singleton.
  split; [intros [Heq|Hin]; [discriminate Heq | exact Hin] | auto].
Qed.

(** X15: a constructed endpoint has all flags false, no identity, and
    handlers in the order IPv4, IPv6: the IPv4 handler exactly when the IPv4
    group was not blacklisted before and its join and bind return 0, the
    IPv6 handler exactly when the probe found IPv6, the IPv6 group was not
    blacklisted before and its join and bind return 0, whatever happened to
    the IPv4 attempt; each handler starts with a running thread, an empty
    cache, nothing sent and both last-send times at the clock's epoch. *)
Theorem SoapySSDPEndpoint_new_spec (p : Process) (inp : SetupInput) :
  let usable group joinRet bindRet :=
    (negb (bool_decide (group ∈ blacklistedGroups p))
     && (joinRet =? 0) && (bindRet =? 0))%bool in
  let fresh v group :=
    mkData v [] (toString (mkURL "udp" group SSDP_UDP_PORT_NUMBER)) true 0 0 ∅ in
  (SoapySSDPEndpoint_new p inp).2 =
  mkEndpoint false false false false "" ""
    ((if usable SSDP_MULTICAST_ADDR_IPV4 (join4 inp) (bind4 inp)
      then [fresh 4 SSDP_MULTICAST_ADDR_IPV4] else []) ++
     (if (isIPv6Supported inp && usable SSDP_MULTICAST_ADDR_IPV6 (join6 inp) (bind6 inp))%bool
      then [fresh 6 SSDP_MULTICAST_ADDR_IPV6] else [])).
Proof.
  cbv zeta. unfold SoapySSDPEndpoint_new, spawnHandler.
  destruct (bool_decide (SSDP_MULTICAST_ADDR_IPV4 ∈ blacklistedGroups p));
    cbn [negb andb];
    [|destruct (join4 inp =? 0); cbn [negb andb];
      [destruct (bind4 inp =? 0); cbn [negb andb]|]];
    (destruct (isIPv6Supported inp); cbn [andb]; [|reflexivity]);
    cbn [blacklistedGroups];
    rewrite ?IPV6_group_blacklisted_after_IPV4;
    (destruct (bool_decide (SSDP_MULTICAST_ADDR_IPV6 ∈ blacklistedGroups p));
     cbn [negb andb]; [reflexivity|]);
    (destruct (join6 inp =? 0); cbn [negb andb]; [|reflexivity]);
    (destruct (bind6 inp =? 0); cbn [negb andb]; reflexivity).
Qed.

End Construction.

(** ** No entry without a USN *)

Section NoAnonymousEntry.
Context `{Platform}.

Lemma handleRegisterService_no_empty_usn (data data' : SoapySSDPEndpointData)
    (header : SoapyHTTPHeader) (recvAddr : string) (now : Z) :
  handleRegisterService data header recvAddr now = Ok data' ->
  usnToURL data !! "" = None -> usnToURL data' !! "" = None.
Proof.
  unfold handleRegisterService.
  destruct (String.eqb_spec (getField header "USN") "") as [_|Husn]; [intros [= <-]; auto|].
  destruct (String.eqb _ NTS_BYEBYE).
  { intros [= <-] Hnone. simpl. rewrite lookup_delete_ne by exact Husn. exact Hnone. }
  destruct (String.eqb _ ""); [intros [= <-]; auto|].
  destruct (getCacheDuration header); simpl; [|discriminate].
  intros [= <-] Hnone. simpl. rewrite lookup_insert_ne by exact Husn. exact Hnone.
Qed.

Lemma dispatch_no_empty_usn (ep : SoapySSDPEndpoint) (data data' : SoapySSDPEndpointData)
    (header : SoapyHTTPHeader) (recvAddr date : string) (now : Z) :
  dispatch ep data header recvAddr date now = Ok data' ->
  usnToURL data !! "" = None -> usnToURL data' !! "" = None.
Proof.
  intros Hd Hnone. revert Hd.
  unfold dispatch, handleSearchResponse, handleNotifyRequest.
  set (d1 := if String.eqb (getLine0 header) "M-SEARCH * HTTP/1.1" then _ else data).
  assert (H1 : usnToURL d1 !! "" = None).
  { subst d1. destruct (String.eqb _ _); [|exact Hnone].
    rewrite usnToURL_handleSearchRequest. exact Hnone. }
  clearbody d1.
  set (r2 := if String.eqb (getLine0 header) "HTTP/1.1 200 OK" then _ else Ok d1).
  assert (H2 : forall d2, r2 = Ok d2 -> usnToURL d2 !! "" = None).
  { subst r2. intros d2.
    destruct (String.eqb _ _); [|intros [= <-]; exact H1].
    destruct (negb _); [intros [= <-]; exact H1|].
    intros Hr. eapply handleRegisterService_no_empty_usn; eassumption. }
  clearbody r2. destruct r2 as [d2|e]; simpl; [|discriminate].
  specialize (H2 d2 eq_refl).
  destruct (String.eqb _ _); [|intros [= <-]; exact H2].
  destruct (negb _); [intros [= <-]; exact H2|].
  intros Hr. eapply handleRegisterService_no_empty_usn; eassumption.
Qed.

Lemma handlerLoop_no_empty_usn (ep : SoapySSDPEndpoint) (data data' : SoapySSDPEndpointData)
    (inp : LoopInput) :
  handlerLoop ep data inp = Ok data' ->
  usnToURL data !! "" = None -> usnToURL data' !! "" = None.
Proof.
  assert (Hsweep : forall d t1 t2 t3, usnToURL d !! "" = None ->
                     usnToURL (sweepAndTriggers ep d t1 t2 t3) !! "" = None).
  { intros d t1 t2 t3 Hd. rewrite usnToURL_sweepAndTriggers, removeOldEntries_lookup, Hd.
    reflexivity. }
  unfold handlerLoop, handlerLoop_body.
  destruct (done ep).
  { intros [= <-] Hnone. unfold sendNotifyHeader.
    destruct (negb _); exact Hnone. }
  destruct (received inp) as [|ret header recvAddr].
  { intros [= <-]. apply Hsweep. }
  destruct (ret <? 0); [intros [= <-]; auto|].
  destruct (dispatch _ _ _ _ _ _) as [d1|e] eqn:Hd; simpl; [|discriminate].
  intros [= <-] Hnone. apply Hsweep. eapply dispatch_no_empty_usn; eassumption.
Qed.

Lemma step_no_empty_usn (ep ep' : SoapySSDPEndpoint) (op : Op) :
  step ep op = Ok ep' ->
  Forall (fun data => usnToURL data !! "" = None) (handlers ep) ->
  Forall (fun data => usnToURL data !! "" = None) (handlers ep').
Proof.
  assert (Hcaches : forall hs hs' : list SoapySSDPEndpointData,
            usnToURL <$> hs' = usnToURL <$> hs ->
            Forall (fun data => usnToURL data !! "" = None) hs ->
            Forall (fun data => usnToURL data !! "" = None) hs').
  { intros hs hs' Heq Hall.
    assert (Hm : Forall (fun m : gmap string (string * Z) => m !! "" = None)
                   (usnToURL <$> hs'))
      by (rewrite Heq; apply Forall_fmap; exact Hall).
    apply Forall_fmap in Hm. exact Hm. }
  destruct op as [u sv|enable now|enable now|v only| |i inp]; simpl.
  - intros [= <-]. auto.
  - intros [= <-]. apply Hcaches. simpl. apply fmap_imap_const. reflexivity.
  - intros [= <-]. apply Hcaches. simpl. apply fmap_imap_const.
    intros j data. unfold sendNotifyHeader. destruct (negb _); reflexivity.
  - intros [= <-]. auto.
  - intros [= <-]. auto.
  - unfold runHandler.
    destruct (handlers ep !! i) as [data|] eqn:Hi; [|intros [= <-]; auto].
    destruct (thread data); [|intros [= <-]; auto].
    destruct (handlerLoop ep data inp) as [data'|e] eqn:Hloop; simpl; [|discriminate].
    intros [= <-] Hall. simpl. apply Forall_insert; [exact Hall|].
    eapply handlerLoop_no_empty_usn; [exact Hloop|].
    exact (Forall_lookup_1 (fun d => usnToURL d !! "" = None) _ _ _ Hall Hi).
Qed.

Lemma spawnHandler_Forall (P : SoapySSDPEndpointData -> Prop) (p : Process)
    (ep : SoapySSDPEndpoint) (bindAddr groupAddr : string) (v joinRet bindRet : Z) :
  (forall url, P (mkData v [] url true 0 0 ∅)) ->
  Forall P (handlers ep) ->
  Forall P (handlers (spawnHandler p ep bindAddr groupAddr v joinRet bindRet).2).
Proof.
  intros Hfresh Hall. unfold spawnHandler.
  destruct (bool_decide _); [exact Hall|].
  destruct (joinRet =? 0); simpl; [|exact Hall].
  destruct (bindRet =? 0); simpl; [|exact Hall].
  apply Forall_app. split; [exact Hall|]. apply Forall_singleton, Hfresh.
Qed.

(** X16: no cache of an endpoint ever holds an entry for the empty USN,
    from construction on through any run of operations, so no query returns
    a locator recorded without a USN. *)
Theorem no_entry_without_usn (p : Process) (inp : SetupInput) (ops : list Op)
    (ep' : SoapySSDPEndpoint) :
  exec (SoapySSDPEndpoint_new p inp).2 ops = Ok ep' ->
  Forall (fun data => usnToURL data !! "" = None) (handlers ep') /\
  (forall v only, usnPrefToURL ep' v only !! "" = None).
Proof.
  intros Hexec.
  assert (Hall : Forall (fun data => usnToURL data !! "" = None) (handlers ep')).
  { assert (Hnew : Forall (fun data => usnToURL data !! "" = None)
                     (handlers (SoapySSDPEndpoint_new p inp).2)).
    { unfold SoapySSDPEndpoint_new.
      destruct (spawnHandler p _ "0.0.0.0" SSDP_MULTICAST_ADDR_IPV4 4 (join4 inp) (bind4 inp))
        as [p1 ep1] eqn:H4.
      pose proof (spawnHandler_Forall (fun data => usnToURL data !! "" = None) p
                    (mkEndpoint false false false false "" "" [])
                    "0.0.0.0" SSDP_MULTICAST_ADDR_IPV4 4 (join4 inp) (bind4 inp)
                    (fun url => lookup_empty "") (Forall_nil_2 _)) as Hep1.
      rewrite H4 in Hep1. simpl in Hep1.
      destruct (isIPv6Supported inp); [|exact Hep1].
      apply spawnHandler_Forall; [intros url; apply lookup_empty | exact Hep1]. }
    revert Hexec Hnew. generalize (SoapySSDPEndpoint_new p inp).2.
    induction ops as [|op ops IH]; intros ep; simpl.
    - intros [= <-]. auto.
    - destruct (step ep op) as [ep1|e] eqn:Hstep; simpl; [|discriminate].
      intros Hexec Hep. apply (IH ep1 Hexec). eapply step_no_empty_usn; eassumption. }
  split; [exact Hall|].
  intros v only. destruct (usnPrefToURL ep' v only !! "") as [entry|] eqn:Hentry; [|reflexivity].
  unfold usnPrefToURL in Hentry.
  apply foldl_mergeHandler_origin in Hentry as [Hempty|(data & Hin & Hdata)].
  - rewrite lookup_empty in Hempty. discriminate.
  - rewrite Forall_forall in Hall. rewrite (Hall data Hin) in Hdata. discriminate.
Qed.

End NoAnonymousEntry.

(** X16 (witness): the endpoint with both families after the announcements
    [announce46]. *)
Lemma no_entry_without_usn_witness :
  exec (H := referencePlatform) endpoint46 announce46 = Ok cached46 /\
  Forall (fun data => usnToURL data !! "" = None) (handlers cached46).
Proof.
  assert (Hexec : exec (H := referencePlatform)
                    (SoapySSDPEndpoint_new (H := referencePlatform) process0
                       (mkSetupInput true 0 0 0 0)).2 announce46 = Ok cached46)
    by (vm_compute; reflexivity).
  exact (conj Hexec
    (proj1 (no_entry_without_usn (H := referencePlatform) process0
              (mkSetupInput true 0 0 0 0) announce46 cached46 Hexec))).
Defined.

(** X17 (witness): the life [life4] of [endpoint4]. *)
Lemma NoDup_ipVer_exec_witness :
  exec (H := referencePlatform) endpoint4 life4 = Ok ended4 /\
  NoDup (ipVer <$> handlers ended4).
Proof.
  assert (Hexec : exec (H := referencePlatform)
                    (SoapySSDPEndpoint_new (H := referencePlatform) process0
                       (mkSetupInput false 0 0 0 0)).2 life4 = Ok ended4)
    by (vm_compute; reflexivity).
  exact (conj Hexec
    (NoDup_ipVer_exec (H := referencePlatform) process0
       (mkSetupInput false 0 0 0 0) life4 ended4 Hexec)).
Defined.

(** X18 (witness): periodic search enabled, last search at clock reading 0,
    the turn's [timeNow] one hour later. *)
Lemma sweepAndTriggers_silent_witness :
  sock (sweepAndTriggers (H := referencePlatform) searching4
          (mkData 4 [] "udp://239.255.255.250:1900" true 0 0 ∅)
          (seconds 3600) (seconds 3600) (seconds 3600)) = [].
Proof.
  exact (sweepAndTriggers_silent (H := referencePlatform) searching4
           (mkData 4 [] "udp://239.255.255.250:1900" true 0 0 ∅)
           (seconds 3600) (seconds 3600) (seconds 3600)
           ltac:(discriminate) ltac:(discriminate)).
Defined.

(** ** Search targets *)

Section OwnUSN.
Context `{Platform}.

(** X19: a search request whose ST field is this node's own USN (uuid:, the
    identity, two colons and the service target) is not answered: the
    handler is left as it is, whatever the other fields. *)
Theorem search_for_own_usn_ignored (ep : SoapySSDPEndpoint) (data : SoapySSDPEndpointData)
    (request : SoapyHTTPHeader) (recvAddr date : string) (now : Z) :
  getField request "ST" = "uuid:" +:+ uuid ep +:+ "::" +:+ SOAPY_REMOTE_TARGET ->
  handleSearchRequest ep data request recvAddr date now = data.
Proof.
  intros Hst. unfold handleSearchRequest.
  destruct (negb (serviceRegistered ep)); [reflexivity|].
  destruct (negb (String.eqb _ MAN_DISCOVER)); [reflexivity|].
  rewrite Hst. fold (ownUSN ep). rewrite stForUs_ownUSN. reflexivity.
Qed.

End OwnUSN.

(** X19 (witness): node-1 is asked for its own USN. *)
Lemma search_for_own_usn_ignored_witness :
  handleSearchRequest (H := referencePlatform) (registerService "node-1" "55132" endpoint4)
    heard4
    (mkHeader "M-SEARCH * HTTP/1.1"
       [("MAN", MAN_DISCOVER); ("ST", "uuid:node-1::" +:+ SOAPY_REMOTE_TARGET)])
    "udp://192.168.1.9:1900" "" 5 = heard4.
Proof.
  exact (search_for_own_usn_ignored (H := referencePlatform)
           (registerService "node-1" "55132" endpoint4) heard4
           (mkHeader "M-SEARCH * HTTP/1.1"
              [("MAN", MAN_DISCOVER); ("ST", "uuid:node-1::" +:+ SOAPY_REMOTE_TARGET)])
           "udp://192.168.1.9:1900" "" 5 eq_refl).
Defined.

(** ** The thread flag *)

Section ThreadFlag.
Context `{Platform}.

Lemma thread_sendNotifyHeader (ep : SoapySSDPEndpoint) (data : SoapySSDPEndpointData)
    (nts : string) (now : Z) :
  thread (sendNotifyHeader ep data nts now) = thread data.
Proof. unfold sendNotifyHeader. destruct (negb _); reflexivity. Qed.







End ThreadFlag.

(** ** The end of an endpoint *)

Section Destructor.
Context `{Platform}.





End Destructor.

(** The destructor while the handler of a registered node is inside an
    iteration that receives a search message: the response, the alive
    announcement and the departure announcement are sent; and while it is
    inside an idle iteration at 31 seconds with a cached entry that expired
    at 30: the entry is swept. *)
Example SoapySSDPEndpoint_delete_in_progress :
  (fun ep => (fun data => (fun sent : Datagram => (sent.1, getField sent.2 "NTS"))
                            <$> sock data) <$> handlers ep)
    <$> (match SoapySSDPEndpoint_delete (H := referencePlatform) registered4
                 (fun _ => Some (recvTurn peerSearch "udp://192.168.1.9:1900" 5))
                 (fun _ => idleTurn 6) with
         | Ok ep => Some ep
         | Throw _ => None
         end)
  = Some [[("udp://192.168.1.9:1900", "");
           ("udp://239.255.255.250:1900", NTS_ALIVE);
           ("udp://239.255.255.250:1900", NTS_BYEBYE)]] /\
  (fun ep => usnToURL <$> handlers ep)
    <$> (match SoapySSDPEndpoint_delete (H := referencePlatform) cached4
                 (fun _ => Some (idleTurn (seconds 31))) (fun _ => idleTurn (seconds 31)) with
         | Ok ep => Some ep
         | Throw _ => None
         end)
  = Some [∅].
Proof. vm_compute. split; reflexivity. Qed.

(** ** A registered service over the life of an endpoint *)

(** C10 (counterexample): a node with a registered service whose handler's
    [recvfrom] failed once: the service is still registered and the endpoint
    is not shut down, but the search message that arrives next is not
    answered, nothing is sent. *)
Lemma registered_node_stops_answering :
  exec (H := referencePlatform) registered4
    [OpHandlerLoop 0 (failedTurn 1);
     OpHandlerLoop 0 (recvTurn peerSearch "udp://192.168.1.9:1900" 2)]
  = Ok (mkEndpoint true false false false "node-1" "55132"
          [mkData 4 [] "udp://239.255.255.250:1900" false 0 0 ∅]) /\
  getLine0 peerSearch = "M-SEARCH * HTTP/1.1" /\
  getField peerSearch "MAN" = MAN_DISCOVER /\
  getField peerSearch "ST" = SOAPY_REMOTE_TARGET.
Proof. vm_compute. repeat split; reflexivity. Qed.

Section Registered.
Context `{Platform}.

(** C10 (amended): a constructed endpoint has no service registered; over
    any run of public calls, shutdown signal and turns of the handlers'
    threads, the flag at the end is the flag at the start or-ed with "the
    run has a [registerService]": only that operation writes it, it writes
    true, and nothing resets it.  While the flag is true, every handler
    whose thread is running, on an endpoint that is not shut down, answers
    each search request it receives that passes the filters: the turn
    returns, and the handler has then sent the response to the requester and
    after it the alive announcement to its group; every
    [enablePeriodicNotify] makes every handler send an alive announcement;
    and [sendNotifyHeader] sends whenever it is called.  A handler whose
    thread has ended takes no turn any more, so it answers nothing. *)
Theorem registered_endpoint_keeps_answering (p : Process) (inp : SetupInput)
    (ep ep' : SoapySSDPEndpoint) (ops : list Op) :
  exec ep ops = Ok ep' ->
  serviceRegistered (SoapySSDPEndpoint_new p inp).2 = false /\
  serviceRegistered ep' = (serviceRegistered ep || existsb isRegisterService ops)%bool /\
  (serviceRegistered ep = true -> serviceRegistered ep' = true) /\
  (serviceRegistered ep' = true ->
   (forall i data request recvAddr wallClock ret t1 t2 t3 t4,
      handlers ep' !! i = Some data ->
      thread data = true ->
      done ep' = false ->
      0 <= ret ->
      getLine0 request = "M-SEARCH * HTTP/1.1" ->
      getField request "MAN" = MAN_DISCOVER ->
      (getField request "ST" = "ssdp:all"
       \/ getField request "ST" = SOAPY_REMOTE_TARGET
       \/ getField request "ST" = "uuid:" +:+ uuid ep') ->
      exists data' more,
        runHandler ep' i
          (mkLoopInput (RecvFrom ret request recvAddr) wallClock t1 t2 t3 t4)
        = Ok (set_handlers (<[i := data']> (handlers ep')) ep') /\
        sock data' = sock data ++ [(recvAddr, searchResponse ep' wallClock);
                                   (groupURL data, notifyHeader ep' data NTS_ALIVE)] ++ more) /\
   (forall enable now,
      sock <$> handlers (enablePeriodicNotify enable now ep') =
      (fun data => sock data ++ [(groupURL data, notifyHeader ep' data NTS_ALIVE)])
        <$> handlers ep') /\
   (forall data nts now,
      sock (sendNotifyHeader ep' data nts now)
      = sock data ++ [(groupURL data, notifyHeader ep' data nts)])) /\
  (forall i data inp',
     handlers ep' !! i = Some data -> thread data = false ->
     runHandler ep' i inp' = Ok ep').
Proof.
  intros Hexec. apply exec_frame in Hexec as [Hflag _].
  split; [apply serviceRegistered_new|]. split; [exact Hflag|]. split.
  { intros Hreg. rewrite Hflag, Hreg. reflexivity. }
  split.
  - intros Hreg. split; [|split].
    + intros i data request recvAddr wallClock ret t1 t2 t3 t4
             Hi Hth Hdone Hret Hline Hman Hst.
      unfold runHandler. rewrite Hi, Hth.
      unfold handlerLoop, handlerLoop_body. rewrite Hdone. cbn [received].
      apply Z.ltb_ge in Hret. rewrite Hret.
      cbn [date tHandler timeNow tSearch tNotify].
      assert (Hdispatch : dispatch ep' data request recvAddr wallClock t1 =
                Ok (set_lastTimeNotify t1
                      (set_sock (sock data ++ [(recvAddr, searchResponse ep' wallClock);
                                               (groupURL data, notifyHeader ep' data NTS_ALIVE)])
                                data))).
      { unfold dispatch, handleSearchRequest, sendNotifyHeader.
        rewrite Hline, Hreg, Hman, stForUs_spec.
        rewrite bool_decide_eq_true_2 by exact Hst. simpl.
        unfold sendHeader; simpl. rewrite <- app_assoc. reflexivity. }
      rewrite Hdispatch. cbn [rbind].
      match goal with
      | |- context [sweepAndTriggers ep' ?d ?t1 ?t2 ?t3] =>
          destruct (sendsOnlyTo_sweepAndTriggers [groupURL d] ep' d t1 t2 t3
                      ltac:(apply list_elem_of_here)) as [_ (more & Hmore & _)];
          exists (sweepAndTriggers ep' d t1 t2 t3), more
      end.
      split; [reflexivity|]. rewrite Hmore. simpl. rewrite <- app_assoc. reflexivity.
    + intros enable now. unfold enablePeriodicNotify; cbn.
      apply fmap_imap_const. intros j data. rewrite sock_sendNotifyHeader.
      cbn [serviceRegistered]. rewrite Hreg. reflexivity.
    + intros data nts now. rewrite sock_sendNotifyHeader, Hreg. reflexivity.
  - intros i data inp' Hi Hth. unfold runHandler. rewrite Hi, Hth. reflexivity.
Qed.

End Registered.

(** C10 (witness): [endpoint4] enables the periodic search and registers a
    service; its handler then receives the search message of a peer. *)
Lemma registered_endpoint_keeps_answering_witness :
  exec (H := referencePlatform) endpoint4
    [OpEnablePeriodicSearch true (fun _ => 0); OpRegisterService "node-1" "55132"]
  = Ok (registerService "node-1" "55132" searching4) /\
  exists data' more,
    runHandler (H := referencePlatform)
      (registerService "node-1" "55132" searching4) 0
      (recvTurn peerSearch "udp://192.168.1.9:1900" 5)
    = Ok (set_handlers
            (<[0%nat := data']> (handlers (registerService "node-1" "55132" searching4)))
            (registerService "node-1" "55132" searching4)) /\
    (fun sent : Datagram => (sent.1, getLine0 sent.2)) <$> sock data' =
      [("udp://239.255.255.250:1900", "M-SEARCH * HTTP/1.1");
       ("udp://192.168.1.9:1900", "HTTP/1.1 200 OK");
       ("udp://239.255.255.250:1900", "NOTIFY * HTTP/1.1")]
      ++ ((fun sent : Datagram => (sent.1, getLine0 sent.2)) <$> more).
Proof.
  assert (Hexec : exec (H := referencePlatform) endpoint4
            [OpEnablePeriodicSearch true (fun _ => 0); OpRegisterService "node-1" "55132"]
          = Ok (registerService "node-1" "55132" searching4)) by reflexivity.
  split; [exact Hexec|].
  destruct (registered_endpoint_keeps_answering (H := referencePlatform) process0
              (mkSetupInput false 0 0 0 0) endpoint4 _ _ Hexec)
    as (_ & _ & _ & Hanswer & _).
  destruct (Hanswer eq_refl) as (Hsearch & _ & _).
  destruct (Hsearch 0%nat
              (mkData 4 [("udp://239.255.255.250:1900",
                          searchHeader (H := referencePlatform)
                            (mkData 4 [] "udp://239.255.255.250:1900" true 0 0 ∅))]
                      "udp://239.255.255.250:1900" true 0 0 ∅)
              peerSearch "udp://192.168.1.9:1900" "" 200 5 5 5 5
              eq_refl eq_refl eq_refl ltac:(discriminate) eq_refl eq_refl
              (or_intror (or_introl eq_refl)))
    as (data' & more & Hrun & Hsock).
  exists data', more. split; [exact Hrun|].
  rewrite Hsock, !fmap_app. reflexivity.
Defined.
